(** * GeoSnap: EXIF GPS extraction and geospatial export

    A shallow embedding of the extraction and export core that the
    repository holds twice: in [main.py] (the desktop application) and in
    [streamlit_app.py] (the web application).  Python floats are IEEE-754
    binary64 numbers and are embedded as Rocq's primitive [float]s; integers
    are unbounded and are embedded as [Z]; exceptions are explicit results. *)

From Stdlib Require Import ZArith List String Ascii Bool Lia.
From Stdlib Require Import Floats DecimalString.
Import ListNotations.

Local Open Scope Z_scope.
Local Open Scope string_scope.

(** ** Python values, exceptions and arithmetic *)

Module Py.

(** The exceptions the modelled code can meet. *)
Inductive exn : Set :=
  | TypeError
  | ValueError
  | IndexError
  | ZeroDivisionError
  | OverflowError
  | UnidentifiedImageError
  | ShapefileException.

(** The outcome of a Python expression: a value, or a raised exception. *)
Inductive result (A : Type) : Type :=
  | Ok (a : A)
  | Raise (e : exn).
Arguments Ok {A} a.
Arguments Raise {A} e.

Definition bind {A B} (r : result A) (k : A -> result B) : result B :=
  match r with
  | Ok a => k a
  | Raise e => Raise e
  end.

Notation "x <- r ;; k" := (bind r (fun x => k))
  (at level 61, r at next level, right associativity).

(** The values an EXIF GPS magnitude can hold: [None], an [int], a
    [float], or a tuple of such values (a rational is the pair
    [(numerator, denominator)]; a magnitude is a triple of rationals).  A
    rational object that answers [float()] itself stands as the [float] it
    answers with. *)
#[warnings="-register-all"]
Inductive pyval : Type :=
  | VNone
  | VInt (n : Z)
  | VFloat (f : float)
  | VTuple (items : list pyval).

(** [bool(v)] *)
Definition truthy (v : pyval) : bool :=
  match v with
  | VNone => false
  | VInt n => negb (n =? 0)%Z
  | VFloat f => negb (f =? 0)%float
  | VTuple items => match items with [] => false | _ :: _ => true end
  end.

(** [v[i]] *)
Definition getitem (v : pyval) (i : nat) : result pyval :=
  match v with
  | VTuple items =>
      match nth_error items i with
      | Some x => Ok x
      | None => Raise IndexError
      end
  | _ => Raise TypeError
  end.

(** A binary64 result that left the finite range is an [OverflowError]
    for the integer operations. *)
Definition finite_or_overflow (x : spec_float) : result float :=
  match x with
  | S754_infinity _ => Raise OverflowError
  | _ => Ok (SF2Prim x)
  end.

(** [float(n)] for an [int]: the nearest binary64 (ties to even). *)
Definition float_of_int (n : Z) : result float :=
  finite_or_overflow (binary_normalize prec emax n 0 false).

(** [float(v)] *)
Definition py_float (v : pyval) : result float :=
  match v with
  | VInt n => float_of_int n
  | VFloat f => Ok f
  | VNone | VTuple _ => Raise TypeError
  end.

Definition int_as_spec (n : Z) : spec_float :=
  match n with
  | Z0 => S754_zero false
  | Zpos p => S754_finite false p 0
  | Zneg p => S754_finite true p 0
  end.

(** [a / b] on two [int]s: the correctly rounded quotient. *)
Definition int_truediv (a b : Z) : result float :=
  if (b =? 0)%Z then Raise ZeroDivisionError
  else finite_or_overflow (SFdiv prec emax (int_as_spec a) (int_as_spec b)).

(** [x / y] on two [float]s. *)
Definition float_truediv (x y : float) : result float :=
  if (y =? 0)%float then Raise ZeroDivisionError else Ok (x / y)%float.

(** [a / b] *)
Definition truediv (a b : pyval) : result float :=
  match a, b with
  | VInt x, VInt y => int_truediv x y
  | VInt x, VFloat y => fx <- float_of_int x ;; float_truediv fx y
  | VFloat x, VInt y => fy <- float_of_int y ;; float_truediv x fy
  | VFloat x, VFloat y => float_truediv x y
  | _, _ => Raise TypeError
  end.

(** [isinstance(v, (int, float))] *)
Definition is_number (v : pyval) : bool :=
  match v with
  | VInt _ | VFloat _ => true
  | _ => false
  end.

(** [v != 0] *)
Definition ne_zero (v : pyval) : bool :=
  match v with
  | VInt n => negb (n =? 0)%Z
  | VFloat f => negb (f =? 0)%float
  | _ => true
  end.

(** *** Strings *)

(** [c.lower()] on one character.  Strings are byte strings (UTF-8); only
    the ASCII letters change, which is all a comparison with an ASCII
    suffix can observe. *)
Definition lower_ascii (c : ascii) : ascii :=
  let n := nat_of_ascii c in
  if (65 <=? n)%nat && (n <=? 90)%nat then ascii_of_nat (n + 32) else c.

(** [s.lower()] *)
Fixpoint lower (s : string) : string :=
  match s with
  | EmptyString => EmptyString
  | String c r => String (lower_ascii c) (lower r)
  end.

(** [s.endswith(suffix)] *)
Definition endswith (s suffix : string) : bool :=
  let n := String.length s in
  let k := String.length suffix in
  (k <=? n)%nat && String.eqb (substring (n - k) k s) suffix.

(** [s.endswith((suffix, ...))] *)
Definition endswith_any (s : string) (suffixes : list string) : bool :=
  existsb (endswith s) suffixes.

(** [s.splitlines()]: the lines of [s], cut at a carriage return, a line
    feed, or the two in a row. *)
Fixpoint splitlines_from (line : string) (s : string) : list string :=
  match s with
  | EmptyString => match line with EmptyString => [] | _ => [line] end
  | String c r =>
      if Ascii.eqb c "010" then line :: splitlines_from EmptyString r
      else if Ascii.eqb c "013" then
        match r with
        | String c' r' =>
            if Ascii.eqb c' "010" then line :: splitlines_from EmptyString r'
            else line :: splitlines_from EmptyString r
        | EmptyString => [line]
        end
      else splitlines_from (line ++ String c EmptyString) r
  end.

Definition splitlines (s : string) : list string := splitlines_from EmptyString s.

(** *** [repr] of a float

    [repr(x)] is the shortest decimal string that [float] reads back as
    [x] (the nearest one to [x] among the shortest), printed in
    scientific notation when the decimal point falls outside the digits
    by more than Python allows. *)

Definition digits_of (p : positive) : string :=
  NilEmpty.string_of_uint (Pos.to_uint p).

Fixpoint zeros (n : nat) : string :=
  match n with
  | O => EmptyString
  | S k => String "0" (zeros k)
  end.

Definition spec_eqb (x y : spec_float) : bool :=
  match x, y with
  | S754_zero a, S754_zero b => Bool.eqb a b
  | S754_infinity a, S754_infinity b => Bool.eqb a b
  | S754_nan, S754_nan => true
  | S754_finite a m e, S754_finite b n f =>
      Bool.eqb a b && (m =? n)%positive && (e =? f)%Z
  | _, _ => false
  end.

(** [b ^ z], and 1 for a negative [z]. *)
Definition pow_nonneg (b z : Z) : Z := b ^ Z.max z 0.

(** The binary64 nearest to [c * 10^t]: what [float] reads from a decimal
    literal. *)
Definition decimal_to_spec (c : positive) (t : Z) : spec_float :=
  match t with
  | Zneg p =>
      SFdiv prec emax (S754_finite false c 0) (S754_finite false (10 ^ p)%positive 0)
  | _ => binary_normalize prec emax (Zpos c * pow_nonneg 10 t) 0 false
  end.

(** The position of the decimal point: the least [k] with
    [num / den < 10^k], for positive [num] and [den]. *)
Fixpoint decpt_up (fuel : nat) (num den k : Z) : Z :=
  match fuel with
  | O => k
  | S f =>
      if (num <? den * pow_nonneg 10 k)%Z then k
      else decpt_up f num den (k + 1)
  end.

Fixpoint decpt_down (fuel : nat) (num den k : Z) : Z :=
  match fuel with
  | O => k
  | S f =>
      if (num * pow_nonneg 10 (1 - k) <? den)%Z then decpt_down f num den (k - 1)
      else k
  end.

Definition decpt_of (num den : Z) : Z :=
  if (den <=? num)%Z then decpt_up 400 num den 1 else decpt_down 400 num den 0.

(** The [n]-digit decimal that reads back as [x = num / den], if there is
    one: the nearer of the two that surround [x], the even one on a tie. *)
Definition shortest_at (x : spec_float) (num den k n : Z) : option (positive * Z) :=
  let t := k - n in
  let P := num * pow_nonneg 10 (- t) in
  let Q := den * pow_nonneg 10 t in
  let lo := P / Q in
  let r := P mod Q in
  let ok c :=
    match c with
    | Zpos p => spec_eqb (decimal_to_spec p t) x
    | _ => false
    end in
  let pick c :=
    match c with
    | Zpos p => Some (p, t)
    | _ => None
    end in
  if (r =? 0)%Z then pick lo
  else
    match ok lo, ok (lo + 1) with
    | true, false => pick lo
    | false, true => pick (lo + 1)
    | false, false => None
    | true, true =>
        match (2 * r ?= Q)%Z with
        | Lt => pick lo
        | Gt => pick (lo + 1)
        | Eq => if Z.even lo then pick lo else pick (lo + 1)
        end
    end.

Fixpoint shortest_from (fuel : nat) (x : spec_float) (num den k n : Z) : positive * Z :=
  match fuel with
  | O => (1%positive, 0)
  | S f =>
      match shortest_at x num den k n with
      | Some d => d
      | None => shortest_from f x num den k (n + 1)
      end
  end.

Fixpoint strip_zeros (fuel : nat) (c t : Z) : Z * Z :=
  match fuel with
  | O => (c, t)
  | S f => if (c mod 10 =? 0)%Z then strip_zeros f (c / 10) (t + 1) else (c, t)
  end.

(** The digits of the shortest representation of [m * 2^e] and the
    position of its decimal point (the value is [0.digits * 10^decpt]). *)
Definition shortest_digits (m : positive) (e : Z) : string * Z :=
  let num := Zpos m * pow_nonneg 2 e in
  let den := pow_nonneg 2 (- e) in
  let k := decpt_of num den in
  let '(c, t) := shortest_from 17 (S754_finite false m e) num den k 1 in
  let '(c, t) := strip_zeros 400 (Zpos c) t in
  let ds := digits_of (Z.to_pos c) in
  (ds, Z.of_nat (String.length ds) + t).

Definition exponent_str (x : Z) : string :=
  let ds :=
    match x with
    | Z0 => "0"
    | Zpos p | Zneg p => digits_of p
    end in
  let ds := if (String.length ds <? 2)%nat then "0" ++ ds else ds in
  (if (x <? 0)%Z then "-" else "+") ++ ds.

Definition format_repr (ds : string) (decpt : Z) : string :=
  let n := String.length ds in
  if (decpt <=? -4)%Z || (16 <? decpt)%Z then
    substring 0 1 ds
      ++ (if (1 <? n)%nat then "." ++ substring 1 (n - 1) ds else "")
      ++ "e" ++ exponent_str (decpt - 1)
  else if (decpt <=? 0)%Z then "0." ++ zeros (Z.to_nat (- decpt)) ++ ds
  else if (Z.of_nat n <=? decpt)%Z then ds ++ zeros (Z.to_nat decpt - n) ++ ".0"
  else
    substring 0 (Z.to_nat decpt) ds ++ "."
      ++ substring (Z.to_nat decpt) (n - Z.to_nat decpt) ds.

(** [repr(f)], which is also [str(f)]. *)
Definition float_repr (f : float) : string :=
  match Prim2SF f with
  | S754_nan => "nan"
  | S754_infinity s => if s then "-inf" else "inf"
  | S754_zero s => if s then "-0.0" else "0.0"
  | S754_finite s m e =>
      let '(ds, decpt) := shortest_digits m e in
      (if s then "-" else "") ++ format_repr ds decpt
  end.

End Py.
Import Py.

(** ** The libraries the exporters write through *)

(** [csv.writer] with its default dialect: comma-delimited, fields quoted
    only when they hold a delimiter, a quote or a line break, rows ended
    by carriage return and line feed. *)
Module Csv.

Inductive cell : Type :=
  | CStr (s : string)
  | CFloat (f : float).

Definition cell_text (c : cell) : string :=
  match c with
  | CStr s => s
  | CFloat f => float_repr f
  end.

Definition quotechar : ascii := "034"%char.
Definition delimiter : ascii := ","%char.
Definition lineterminator : string := String "013" (String "010" EmptyString).

Definition is_special (c : ascii) : bool :=
  Ascii.eqb c delimiter || Ascii.eqb c quotechar
  || Ascii.eqb c "013" || Ascii.eqb c "010".

Fixpoint needs_quotes (s : string) : bool :=
  match s with
  | EmptyString => false
  | String c r => is_special c || needs_quotes r
  end.

Fixpoint double_quotes (s : string) : string :=
  match s with
  | EmptyString => EmptyString
  | String c r =>
      if Ascii.eqb c quotechar then String c (String c (double_quotes r))
      else String c (double_quotes r)
  end.

Definition field_text (s : string) : string :=
  if needs_quotes s
  then String quotechar (double_quotes s ++ String quotechar EmptyString)
  else s.

(** The text one [writerow] call appends. *)
Definition writerow (row : list cell) : string :=
  let fields := map (fun c => field_text (cell_text c)) row in
  let record := String.concat (String delimiter EmptyString) fields in
  let record :=
    match row, record with
    | _ :: _, EmptyString => String quotechar (String quotechar EmptyString)
    | _, _ => record
    end in
  record ++ lineterminator.

End Csv.

(** [simplekml.Kml]: the document is the sequence of its point features. *)
Module Kml.

Record point : Type := {
  name : string;
  coords : list (float * float)
}.

Definition kml : Type := list point.

Definition Kml : kml := [].

Definition newpoint (k : kml) (name : string) (coords : list (float * float)) : kml :=
  (k ++ [{| name := name; coords := coords |}])%list.

End Kml.

(** [shapefile.Writer]: the fields of the attribute table, the shapes and
    the records written so far. *)
Module Shapefile.

Record writer : Type := {
  fields : list (string * string);
  shapes : list (float * float);
  records : list (list string)
}.

Definition Writer : writer := {| fields := []; shapes := []; records := [] |}.

Definition field (w : writer) (name type : string) : writer :=
  {| fields := (fields w ++ [(name, type)])%list;
     shapes := shapes w;
     records := records w |}.

Definition point (w : writer) (x y : float) : writer :=
  {| fields := fields w;
     shapes := (shapes w ++ [(x, y)])%list;
     records := records w |}.

Definition record (w : writer) (values : list string) : writer :=
  {| fields := fields w;
     shapes := shapes w;
     records := (records w ++ [values])%list |}.

(** Leaving the [with] block closes the writer, which refuses a file set
    whose shapes and records differ in number. *)
Definition close (w : writer) : result writer :=
  if (List.length (records w) =? List.length (shapes w))%nat then Ok w
  else Raise ShapefileException.

(** The four payloads of a file set: the geometry stream, the index (one
    entry per shape), the attribute table and the spatial reference. *)
Record file_set : Type := {
  shp : list (float * float);
  shx : nat;
  dbf : list (string * string) * list (list string);
  prj : string
}.

Definition files (w : writer) (prj_text : string) : file_set :=
  {| shp := shapes w;
     shx := List.length (shapes w);
     dbf := (fields w, records w);
     prj := prj_text |}.

End Shapefile.

(** ** The data model *)

(** The [GPSInfo] dictionary.  The four tags the converter looks up are
    fields ([None] when the key is absent); [gps_other_tags] tells whether
    the dictionary holds any other key. *)
Record gps_info : Type := {
  GPSLatitude : option pyval;
  GPSLatitudeRef : option string;
  GPSLongitude : option pyval;
  GPSLongitudeRef : option string;
  gps_other_tags : bool
}.

(** The dictionary [get_exif_data] returns. *)
Record exif_data : Type := {
  GPSInfo : option gps_info;
  other_tags : bool
}.

(** What opening an image yields: nothing when the bytes do not decode,
    else the tag dictionary, already decoded through PIL's tag tables. *)
Inductive image_source : Type :=
  | Undecodable
  | Decoded (exif : exif_data).

(** One item of a batch: a directory entry or an uploaded file. *)
Record item : Type := {
  name : string;
  image : image_source
}.

(** [bool(d)] for the two dictionaries: a dictionary is true when it has
    a key. *)
Definition gps_nonempty (g : gps_info) : bool :=
  match GPSLatitude g, GPSLatitudeRef g, GPSLongitude g, GPSLongitudeRef g with
  | None, None, None, None => gps_other_tags g
  | _, _, _, _ => true
  end.

Definition exif_nonempty (d : exif_data) : bool :=
  match GPSInfo d with
  | Some _ => true
  | None => other_tags d
  end.

(** [gps.get(key)] for a magnitude: the value, or [None]. *)
Definition dict_get (v : option pyval) : pyval :=
  match v with
  | Some x => x
  | None => VNone
  end.

(** [bool(gps.get(key))] for a hemisphere flag. *)
Definition truthy_ref (r : option string) : bool :=
  match r with
  | Some EmptyString | None => false
  | Some _ => true
  end.

(** [gps.get(key) != s] for a hemisphere flag. *)
Definition ref_ne (r : option string) (s : string) : bool :=
  match r with
  | Some x => negb (String.eqb x s)
  | None => true
  end.

(** ** main.py *)

Module Main.

(** A Coordinate of the desktop application: file name, latitude,
    longitude and an empty placeholder. *)
Definition coordinate : Type := string * float * float * string.

Definition get_exif_data (img : image_source) : result exif_data :=
  match img with
  | Undecodable => Raise UnidentifiedImageError
  | Decoded exif => Ok exif
  end.

Definition to_float (r : pyval) : result float :=
  match py_float r with
  | Raise TypeError | Raise ValueError =>
      r0 <- getitem r 0 ;;
      r1 <- getitem r 1 ;;
      truediv r0 r1
  | res => res
  end.

Definition convert_to_degrees (value : pyval) : result float :=
  v0 <- getitem value 0 ;;
  d <- to_float v0 ;;
  v1 <- getitem value 1 ;;
  m <- to_float v1 ;;
  v2 <- getitem value 2 ;;
  s <- to_float v2 ;;
  Ok (d + (m / 60) + (s / 3600))%float.

Definition get_coordinates (exif : exif_data) : result (option (float * float)) :=
  match GPSInfo exif with
  | None => Ok None
  | Some gps =>
      if negb (gps_nonempty gps) then Ok None
      else
        let lat := dict_get (GPSLatitude gps) in
        let lat_ref := GPSLatitudeRef gps in
        let lon := dict_get (GPSLongitude gps) in
        let lon_ref := GPSLongitudeRef gps in
        if truthy lat && truthy lon && truthy_ref lat_ref && truthy_ref lon_ref
        then
          latitude <- convert_to_degrees lat ;;
          let latitude := if ref_ne lat_ref "N" then (- latitude)%float else latitude in
          longitude <- convert_to_degrees lon ;;
          let longitude := if ref_ne lon_ref "E" then (- longitude)%float else longitude in
          Ok (Some (latitude, longitude))
        else Ok None
  end.

(** The content written to [csv_path]. *)
Definition save_to_csv (coords : list coordinate) : string :=
  fold_left
    (fun out '(fn, lat, lon, _) =>
       out ++ Csv.writerow [Csv.CStr fn; Csv.CFloat lat; Csv.CFloat lon])
    coords
    (Csv.writerow [Csv.CStr "filename"; Csv.CStr "latitude"; Csv.CStr "longitude"]).

(** The document saved to [kml_path]. *)
Definition save_to_kml (coords : list coordinate) : Kml.kml :=
  fold_left
    (fun kml '(fn, lat, lon, _) => Kml.newpoint kml fn [(lon, lat)])
    coords Kml.Kml.

(** The file set written under [shp_base]. *)
Definition save_to_shapefile (coords : list coordinate) : result Shapefile.file_set :=
  let shp := Shapefile.field Shapefile.Writer "filename" "C" in
  let shp :=
    fold_left
      (fun shp '(fn, lat, lon, _) =>
         Shapefile.record (Shapefile.point shp lon lat) [fn])
      coords shp in
  shp <- Shapefile.close shp ;;
  let prj_text := "EPSG:4326" in
  Ok (Shapefile.files shp prj_text).

(** The body of the loop of [GeoSnapExtractor.extract_coordinates] over
    one directory entry. *)
Definition extract_step (coordinates : list coordinate) (entry : item)
  : result (list coordinate) :=
  let filename := name entry in
  if endswith_any (lower filename) ["jpg"; "jpeg"; "png"] then
    exif_data <- get_exif_data (image entry) ;;
    if exif_nonempty exif_data then
      gps_coords <- get_coordinates exif_data ;;
      match gps_coords with
      | Some (lat, lon) => Ok (coordinates ++ [(filename, lat, lon, "")])%list
      | None => Ok coordinates
      end
    else Ok coordinates
  else Ok coordinates.

Fixpoint extract_loop (coordinates : list coordinate) (listing : list item)
  : result (list coordinate) :=
  match listing with
  | [] => Ok coordinates
  | entry :: rest =>
      coordinates <- extract_step coordinates entry ;;
      extract_loop coordinates rest
  end.

(** The extraction of [GeoSnapExtractor.extract_coordinates]:
    [self.coordinates] after the loop over the directory listing. *)
Definition extract_coordinates (listing : list item) : result (list coordinate) :=
  extract_loop [] listing.

End Main.

(** ** streamlit_app.py *)

Module Streamlit.

(** A Coordinate of the web application. *)
Definition coordinate : Type := string * float * float.

(** What the application shows while it runs. *)
Inductive st_msg : Type :=
  | error_reading_exif (e : exn)
  | warning_component (r : pyval)
  | warning_parse (e : exn)
  | warning_unexpected (e : exn)
  | warning_skipping (filename : string)
  | status_processing (filename : string).

(** A computation that shows messages and may raise. *)
Definition St (A : Type) : Type := list st_msg -> result A * list st_msg.

Definition ret {A} (a : A) : St A := fun shown => (Ok a, shown).

Definition raise {A} (e : exn) : St A := fun shown => (Raise e, shown).

Definition lift {A} (r : result A) : St A := fun shown => (r, shown).

Definition show (m : st_msg) : St unit := fun shown => (Ok tt, (shown ++ [m])%list).

Definition st_bind {A B} (c : St A) (k : A -> St B) : St B :=
  fun shown =>
    match c shown with
    | (Ok a, shown') => k a shown'
    | (Raise e, shown') => (Raise e, shown')
    end.

Definition try_except {A} (body : St A) (handler : exn -> St A) : St A :=
  fun shown =>
    match body shown with
    | (Ok a, shown') => (Ok a, shown')
    | (Raise e, shown') => handler e shown'
    end.

Notation "x <~ c ;; k" := (st_bind c (fun x => k))
  (at level 61, c at next level, right associativity).
Notation "c ;;; k" := (st_bind c (fun _ => k))
  (at level 61, right associativity).

Definition get_exif_data (img : image_source) : St (option exif_data) :=
  match img with
  | Undecodable => show (error_reading_exif UnidentifiedImageError) ;;; ret None
  | Decoded exif => ret (Some exif)
  end.

Definition to_float (r : pyval) : St float :=
  match py_float r with
  | Raise TypeError | Raise ValueError =>
      match r with
      | VTuple [r0; r1] =>
          if is_number r0 && is_number r1 && ne_zero r1 then lift (truediv r0 r1)
          else
            show (warning_component r) ;;;
            raise ValueError
      | VInt _ | VFloat _ => lift (py_float r)
      | _ =>
          show (warning_component r) ;;;
          raise ValueError
      end
  | res => lift res
  end.

Definition convert_to_degrees (value : pyval) : St float :=
  v0 <~ lift (getitem value 0) ;;
  d <~ to_float v0 ;;
  v1 <~ lift (getitem value 1) ;;
  m <~ to_float v1 ;;
  v2 <~ lift (getitem value 2) ;;
  s <~ to_float v2 ;;
  ret (d + (m / 60) + (s / 3600))%float.

Definition get_coordinates (exif_data : option exif_data) : St (option (float * float)) :=
  match exif_data with
  | None => ret None
  | Some exif =>
      if negb (exif_nonempty exif) then ret None
      else
        match GPSInfo exif with
        | None => ret None
        | Some gps =>
            if negb (gps_nonempty gps) then ret None
            else
              let lat_value := dict_get (GPSLatitude gps) in
              let lat_ref := GPSLatitudeRef gps in
              let lon_value := dict_get (GPSLongitude gps) in
              let lon_ref := GPSLongitudeRef gps in
              if truthy lat_value && truthy lon_value
                 && truthy_ref lat_ref && truthy_ref lon_ref
              then
                try_except
                  (latitude <~ convert_to_degrees lat_value ;;
                   let latitude :=
                     if ref_ne lat_ref "N" then (- latitude)%float else latitude in
                   longitude <~ convert_to_degrees lon_value ;;
                   let longitude :=
                     if ref_ne lon_ref "E" then (- longitude)%float else longitude in
                   ret (Some (latitude, longitude)))
                  (fun e =>
                     match e with
                     | ValueError => show (warning_parse e) ;;; ret None
                     | _ => show (warning_unexpected e) ;;; ret None
                     end)
              else ret None
        end
  end.

Definition save_to_csv_bytes (coords : list coordinate) : string :=
  fold_left
    (fun output '(fn, lat, lon) =>
       output ++ Csv.writerow [Csv.CStr fn; Csv.CFloat lat; Csv.CFloat lon])
    coords
    (Csv.writerow [Csv.CStr "filename"; Csv.CStr "latitude"; Csv.CStr "longitude"]).

Definition save_to_kml_bytes (coords : list coordinate) : Kml.kml :=
  fold_left
    (fun kml '(fn, lat, lon) => Kml.newpoint kml fn [(lon, lat)])
    coords Kml.Kml.

Definition dq : string := String Csv.quotechar EmptyString.

(** The spatial reference text of the web application. *)
Definition prj_text : string :=
  "GEOGCS[" ++ dq ++ "GCS_WGS_1984" ++ dq
  ++ ",DATUM[" ++ dq ++ "D_WGS_1984" ++ dq
  ++ ",SPHEROID[" ++ dq ++ "WGS_1984" ++ dq ++ ",6378137,298.257223563]]"
  ++ ",PRIMEM[" ++ dq ++ "Greenwich" ++ dq ++ ",0]"
  ++ ",UNIT[" ++ dq ++ "Degree" ++ dq ++ ",0.017453292519943295]]".

Definition save_to_shapefile_bytes (coords : list coordinate)
  : result Shapefile.file_set :=
  let shp := Shapefile.field Shapefile.Writer "filename" "C" in
  let shp :=
    fold_left
      (fun shp '(fn, lat, lon) =>
         Shapefile.record (Shapefile.point shp lon lat) [fn])
      coords shp in
  shp <- Shapefile.close shp ;;
  Ok (Shapefile.files shp prj_text).

(** The body of the extraction loop over one uploaded file; the progress
    bar is left out. *)
Definition extract_step (coordinates : list coordinate) (uploaded_file : item)
  : St (list coordinate) :=
  let filename := name uploaded_file in
  if negb (endswith_any (lower filename) [".jpg"; ".jpeg"; ".png"]) then
    show (warning_skipping filename) ;;;
    ret coordinates
  else
    show (status_processing filename) ;;;
    exif_data <~ get_exif_data (image uploaded_file) ;;
    if match exif_data with Some d => exif_nonempty d | None => false end then
      gps_coords <~ get_coordinates exif_data ;;
      match gps_coords with
      | Some (lat, lon) => ret (coordinates ++ [(filename, lat, lon)])%list
      | None => ret coordinates
      end
    else ret coordinates.

Fixpoint extract_loop (coordinates : list coordinate) (uploaded_files : list item)
  : St (list coordinate) :=
  match uploaded_files with
  | [] => ret coordinates
  | uploaded_file :: rest =>
      coordinates <~ extract_step coordinates uploaded_file ;;
      extract_loop coordinates rest
  end.

(** The extraction run by the "Extract Coordinates" button:
    [st.session_state.coordinates] after the loop, and what was shown. *)
Definition extract_coordinates (uploaded_files : list item)
  : result (list coordinate) * list st_msg :=
  extract_loop [] uploaded_files [].

End Streamlit.

(** ** The window of the desktop application *)

Module GeoSnapExtractor.

(** [min(values)]: the first of the least elements, by [<]. *)
Definition py_min (values : list float) : result float :=
  match values with
  | [] => Raise ValueError
  | first :: rest =>
      Ok (fold_left (fun least x => if (x <? least)%float then x else least) rest first)
  end.

(** [max(values)]: the first of the greatest elements, by [>]. *)
Definition py_max (values : list float) : result float :=
  match values with
  | [] => Raise ValueError
  | first :: rest =>
      Ok (fold_left (fun greatest x => if (greatest <? x)%float then x else greatest)
            rest first)
  end.

(** The [folium.Map] that [update_map] builds: its base layers, its
    markers (location and popup), the bounds it is fitted to, if any, and
    whether it has a layer control. *)
Record folium_map : Type := {
  tile_layers : list (string * string);
  markers : list ((float * float) * string);
  fitted_bounds : option ((float * float) * (float * float));
  layer_control : bool
}.

Definition update_map (coordinates : list Main.coordinate) : result folium_map :=
  let layers := [("OpenStreetMap", "Street Map"); ("Esri.WorldImagery", "Satellite")] in
  let markers := map (fun '(filename, lat, lon, _) => ((lat, lon), filename)) coordinates in
  bounds <-
    match coordinates with
    | [] => Ok None
    | _ :: _ =>
        let lats := map (fun '(_, lat, _, _) => lat) coordinates in
        let lons := map (fun '(_, _, lon, _) => lon) coordinates in
        min_lat <- py_min lats ;;
        min_lon <- py_min lons ;;
        max_lat <- py_max lats ;;
        max_lon <- py_max lons ;;
        Ok (Some ((min_lat, min_lon), (max_lat, max_lon)))
    end ;;
  Ok {| tile_layers := layers;
        markers := markers;
        fitted_bounds := bounds;
        layer_control := true |}.

(** The text of the status label. *)
Inductive status : Type :=
  | status_empty
  | status_extracting
  | status_no_gps
  | status_done (export_dir : string).

(** The message boxes. *)
Inductive dialog : Type :=
  | warning (text : string)
  | information (text : string).

(** The fields of the window that [extract_coordinates] reads and
    writes. *)
Record window : Type := {
  folder_path : string;
  output_folder_path : string;
  csv_checked : bool;
  kml_checked : bool;
  shp_checked : bool;
  coordinates : list Main.coordinate;
  status_label : status;
  map_view : option folium_map;
  open_folder_enabled : bool
}.

(** A file, or file set, written under the output folder. *)
Inductive export_file : Type :=
  | csv_file (filename : string) (content : string)
  | kml_file (filename : string) (document : Kml.kml)
  | shapefile_set (base : string) (payloads : Shapefile.file_set).

(** What a click on "Extract Coordinates" leaves behind: the window, the
    message boxes shown, the directory made, the files written, and the
    exception that ended it, if one did. *)
Record outcome : Type := {
  after : window;
  dialogs : list dialog;
  made_directory : option string;
  written : list export_file;
  raised : option exn
}.

Definition set_status (w : window) (s : status) : window :=
  {| folder_path := folder_path w;
     output_folder_path := output_folder_path w;
     csv_checked := csv_checked w;
     kml_checked := kml_checked w;
     shp_checked := shp_checked w;
     coordinates := coordinates w;
     status_label := s;
     map_view := map_view w;
     open_folder_enabled := open_folder_enabled w |}.

Definition set_coordinates (w : window) (cs : list Main.coordinate) : window :=
  {| folder_path := folder_path w;
     output_folder_path := output_folder_path w;
     csv_checked := csv_checked w;
     kml_checked := kml_checked w;
     shp_checked := shp_checked w;
     coordinates := cs;
     status_label := status_label w;
     map_view := map_view w;
     open_folder_enabled := open_folder_enabled w |}.

Definition set_map (w : window) (m : folium_map) : window :=
  {| folder_path := folder_path w;
     output_folder_path := output_folder_path w;
     csv_checked := csv_checked w;
     kml_checked := kml_checked w;
     shp_checked := shp_checked w;
     coordinates := coordinates w;
     status_label := status_label w;
     map_view := Some m;
     open_folder_enabled := open_folder_enabled w |}.

Definition enable_open_folder (w : window) : window :=
  {| folder_path := folder_path w;
     output_folder_path := output_folder_path w;
     csv_checked := csv_checked w;
     kml_checked := kml_checked w;
     shp_checked := shp_checked w;
     coordinates := coordinates w;
     status_label := status_label w;
     map_view := map_view w;
     open_folder_enabled := true |}.

(** The loop over the directory listing, which appends to
    [self.coordinates] in place: what it holds when the loop ends, and the
    exception that ended it, if one did. *)
Fixpoint extract_loop (coordinates : list Main.coordinate) (listing : list item)
  : list Main.coordinate * option exn :=
  match listing with
  | [] => (coordinates, None)
  | entry :: rest =>
      match Main.extract_step coordinates entry with
      | Ok coordinates' => extract_loop coordinates' rest
      | Raise e => (coordinates, Some e)
      end
  end.

Definition stopped (w : window) (shown : list dialog) : outcome :=
  {| after := w; dialogs := shown; made_directory := None; written := [];
     raised := None |}.

Definition failed (w : window) (dir : option string) (files : list export_file)
           (e : exn) : outcome :=
  {| after := w; dialogs := []; made_directory := dir; written := files;
     raised := Some e |}.

(** [GeoSnapExtractor.extract_coordinates], for the directory listing of
    [folder_path].  Writing the files is taken to succeed. *)
Definition extract_coordinates (w : window) (listing : list item) : outcome :=
  if String.eqb (folder_path w) "" then
    stopped w [warning "Please select an image folder."]
  else if String.eqb (output_folder_path w) "" then
    stopped w [warning "Please select an output folder."]
  else if negb (csv_checked w || kml_checked w || shp_checked w) then
    stopped w [warning "Select at least one export format."]
  else
    let w := set_status w status_extracting in
    let w := set_coordinates w [] in
    match extract_loop [] listing with
    | (found, Some e) => failed (set_coordinates w found) None [] e
    | (found, None) =>
        let w := set_coordinates w found in
        match update_map found with
        | Raise e => failed w None [] e
        | Ok m =>
            let w := set_map w m in
            match found with
            | [] =>
                stopped (set_status w status_no_gps)
                        [information "No images with GPS data found."]
            | _ :: _ =>
                let export_dir := output_folder_path w in
                let files :=
                  if csv_checked w
                  then [csv_file "coordinates.csv" (Main.save_to_csv found)]
                  else [] in
                let files :=
                  if kml_checked w
                  then (files ++ [kml_file "coordinates.kml" (Main.save_to_kml found)])%list
                  else files in
                if shp_checked w then
                  match Main.save_to_shapefile found with
                  | Raise e => failed w (Some export_dir) files e
                  | Ok payloads =>
                      {| after := enable_open_folder (set_status w (status_done export_dir));
                         dialogs := [];
                         made_directory := Some export_dir;
                         written := (files ++ [shapefile_set "coordinates" payloads])%list;
                         raised := None |}
                  end
                else
                  {| after := enable_open_folder (set_status w (status_done export_dir));
                     dialogs := [];
                     made_directory := Some export_dir;
                     written := files;
                     raised := None |}
            end
        end
    end.

End GeoSnapExtractor.

(** ** The downloads of the web application *)

Module Download.

(** The bytes of one exported file. *)
Inductive payload : Type :=
  | csv_bytes (text : string)
  | kml_bytes (document : Kml.kml)
  | shp_bytes (geometry : list (float * float))
  | shx_bytes (entries : nat)
  | dbf_bytes (table : list (string * string) * list (list string))
  | prj_bytes (text : string).

(** What the export section shows after a click on "Download Selected
    Formats". *)
Inductive shown : Type :=
  | warning_select_format
  | download_zip (file_name : string) (entries : list (string * payload))
  | download_file (file_name mime : string) (data : payload).




End Download.

(** ** The vocabulary of the specification *)

(** The sign of a binary64, read off its specification; a NaN has none. *)
Definition sf_nonneg (x : spec_float) : bool :=
  match x with
  | S754_zero _ => true
  | S754_infinity s | S754_finite s _ _ => negb s
  | S754_nan => false
  end.

Definition sf_nonpos (x : spec_float) : bool :=
  match x with
  | S754_zero _ => true
  | S754_infinity s | S754_finite s _ _ => s
  | S754_nan => false
  end.

(** A rational of the data model that is not negative: a plain number
    that is at least zero, or a pair of integers with a numerator at
    least zero and a denominator above zero. *)
Definition nonneg_rational (v : pyval) : bool :=
  match v with
  | VInt n => (0 <=? n)%Z
  | VFloat f => (0 <=? f)%float
  | VTuple [VInt n; VInt d] => (0 <=? n)%Z && (0 <? d)%Z
  | _ => false
  end.

(** A magnitude: degrees, minutes and seconds, none of them negative. *)
Definition valid_magnitude (v : pyval) : bool :=
  match v with
  | VTuple [d; m; s] => nonneg_rational d && nonneg_rational m && nonneg_rational s
  | _ => false
  end.

Definition ref_in (r : option string) (allowed : list string) : bool :=
  match r with
  | Some x => existsb (String.eqb x) allowed
  | None => false
  end.

(** A valid GpsBlock: both magnitudes valid, the latitude hemisphere one
    of N and S, the longitude hemisphere one of E and W. *)
Definition valid_gps (g : gps_info) : bool :=
  valid_magnitude (dict_get (GPSLatitude g))
  && valid_magnitude (dict_get (GPSLongitude g))
  && ref_in (GPSLatitudeRef g) ["N"; "S"]
  && ref_in (GPSLongitudeRef g) ["E"; "W"].

(** The Converter accepts a block and yields [(lat, lon)]: one of the two
    implementations does. *)
Definition converts (exif : exif_data) (lat lon : float) : Prop :=
  Main.get_coordinates exif = Ok (Some (lat, lon))
  \/ exists shown shown',
       Streamlit.get_coordinates (Some exif) shown = (Ok (Some (lat, lon)), shown').

(** The range of a Coordinate. *)
Definition in_range (lat lon : float) : bool :=
  ((-90 <=? lat) && (lat <=? 90) && (-180 <=? lon) && (lon <=? 180))%float.

(** The extension of a file name, in the specification's sense: what
    follows its last dot. *)
Fixpoint extension (s : string) : option string :=
  match s with
  | EmptyString => None
  | String c r =>
      match extension r with
      | Some e => Some e
      | None => if Ascii.eqb c "." then Some r else None
      end
  end.

(** A recognized image extension: jpg, jpeg or png, in any case. *)
Definition has_image_extension (filename : string) : bool :=
  match extension (lower filename) with
  | Some e => existsb (String.eqb e) ["jpg"; "jpeg"; "png"]
  | None => false
  end.

(** A computation of the web application whose outcome does not depend
    on what was shown before, and which only adds to it. *)
Definition appends {A} (c : Streamlit.St A) : Prop :=
  exists r w, forall shown, c shown = (r, (shown ++ w)%list).

(** The same, for a computation that cannot raise. *)
Definition appends_ok {A} (c : Streamlit.St A) : Prop :=
  exists a w, forall shown, c shown = (Ok a, (shown ++ w)%list).

(** What one uploaded file adds to the CoordinateSet. *)
Definition contribution (uploaded_file : item) : list Streamlit.coordinate :=
  match fst (Streamlit.extract_step [] uploaded_file []) with
  | Ok coordinates => coordinates
  | Raise _ => []
  end.

(** What one directory entry adds to the CoordinateSet of the desktop
    application, when its step does not raise. *)
Definition main_contribution (entry : item) : list Main.coordinate :=
  match Main.extract_step [] entry with
  | Ok coordinates => coordinates
  | Raise _ => []
  end.

(** A desktop Coordinate without its placeholder. *)
Definition without_placeholder (c : Main.coordinate) : Streamlit.coordinate :=
  let '(fn, lat, lon, _) := c in (fn, lat, lon).

(** The file names that the messages of the web application name: the
    files it skipped and the files it processed. *)
Definition names_shown (shown : list Streamlit.st_msg) : list string :=
  flat_map
    (fun m =>
       match m with
       | Streamlit.warning_skipping n | Streamlit.status_processing n => [n]
       | _ => []
       end)
    shown.

(** A computation of the web application that names no file in what it
    shows. *)
Definition names_nothing {A} (c : Streamlit.St A) : Prop :=
  exists r w,
    (forall shown, c shown = (r, (shown ++ w)%list)) /\ names_shown w = [].

(** The place of a binary64 that is not a NaN in the order of the
    numbers: its class (from minus infinity to plus infinity), then its
    exponent and its mantissa, both counted downwards for a negative
    number. *)
Definition rank (x : spec_float) : Z * Z * Z :=
  match x with
  | S754_infinity true => (-2, 0, 0)
  | S754_finite true m e => (-1, - e, Zneg m)
  | S754_zero _ | S754_nan => (0, 0, 0)
  | S754_finite false m e => (1, e, Zpos m)
  | S754_infinity false => (2, 0, 0)
  end.

Definition lex_le (p q : Z * Z * Z) : Prop :=
  let '(a1, b1, c1) := p in
  let '(a2, b2, c2) := q in
  a1 < a2 \/ (a1 = a2 /\ (b1 < b2 \/ (b1 = b2 /\ c1 <= c2))).

Definition lex_lt (p q : Z * Z * Z) : Prop :=
  let '(a1, b1, c1) := p in
  let '(a2, b2, c2) := q in
  a1 < a2 \/ (a1 = a2 /\ (b1 < b2 \/ (b1 = b2 /\ c1 < c2))).

(** No latitude and no longitude of the set is a NaN. *)
Definition no_nan (coordinates : list Main.coordinate) : Prop :=
  forall fn lat lon d,
    In (fn, lat, lon, d) coordinates -> is_nan lat = false /\ is_nan lon = false.

(** The window is ready for an extraction: both folders are chosen and
    a format is checked. *)
Definition ready (w : GeoSnapExtractor.window) : bool :=
  negb (String.eqb (GeoSnapExtractor.folder_path w) "")
  && negb (String.eqb (GeoSnapExtractor.output_folder_path w) "")
  && (GeoSnapExtractor.csv_checked w || GeoSnapExtractor.kml_checked w
      || GeoSnapExtractor.shp_checked w).

(** A window as the application opens it, with both folders chosen. *)
Definition sample_window : GeoSnapExtractor.window :=
  {| GeoSnapExtractor.folder_path := "photos";
     GeoSnapExtractor.output_folder_path := "exports";
     GeoSnapExtractor.csv_checked := true;
     GeoSnapExtractor.kml_checked := true;
     GeoSnapExtractor.shp_checked := true;
     GeoSnapExtractor.coordinates := [];
     GeoSnapExtractor.status_label := GeoSnapExtractor.status_empty;
     GeoSnapExtractor.map_view := None;
     GeoSnapExtractor.open_folder_enabled := false |}.

(** The same window before an output folder is chosen. *)
Definition window_without_output : GeoSnapExtractor.window :=
  {| GeoSnapExtractor.folder_path := "photos";
     GeoSnapExtractor.output_folder_path := "";
     GeoSnapExtractor.csv_checked := true;
     GeoSnapExtractor.kml_checked := true;
     GeoSnapExtractor.shp_checked := true;
     GeoSnapExtractor.coordinates := [];
     GeoSnapExtractor.status_label := GeoSnapExtractor.status_empty;
     GeoSnapExtractor.map_view := None;
     GeoSnapExtractor.open_folder_enabled := false |}.



(** A text without a carriage return or a line feed. *)
Fixpoint no_line_break (s : string) : bool :=
  match s with
  | EmptyString => true
  | String c r => negb (Ascii.eqb c "010") && negb (Ascii.eqb c "013") && no_line_break r
  end.

(** The text of a data row before its line terminator. *)
Definition row_text (fn : string) (lat lon : float) : string :=
  Csv.field_text fn ++ "," ++ Csv.field_text (float_repr lat) ++ ","
  ++ Csv.field_text (float_repr lon).

(** ** Sample data *)

(** The rational [n/d] as EXIF stores it. *)
Definition rat (n d : Z) : pyval := VTuple [VInt n; VInt d].

Definition dms (d m s : pyval) : pyval := VTuple [d; m; s].

Definition gps_block (lat : pyval) (lat_ref : string) (lon : pyval) (lon_ref : string)
  : gps_info :=
  {| GPSLatitude := Some lat;
     GPSLatitudeRef := Some lat_ref;
     GPSLongitude := Some lon;
     GPSLongitudeRef := Some lon_ref;
     gps_other_tags := false |}.

Definition with_gps (g : gps_info) : exif_data :=
  {| GPSInfo := Some g; other_tags := false |}.

(** The GpsBlock of the conversion scenario. *)
Definition gps_south_east : gps_info :=
  gps_block (dms (rat 10 1) (rat 30 1) (rat 0 1)) "S"
            (dms (rat 20 1) (rat 15 1) (rat 0 1)) "E".

(** The same block with a zero denominator in its latitude degrees. *)
Definition gps_zero_denominator : gps_info :=
  gps_block (dms (rat 10 0) (rat 30 1) (rat 0 1)) "S"
            (dms (rat 20 1) (rat 15 1) (rat 0 1)) "E".

(** A block that converts to [(1.0, 2.0)]. *)
Definition gps_one_two : gps_info :=
  gps_block (dms (rat 1 1) (rat 0 1) (rat 0 1)) "N"
            (dms (rat 2 1) (rat 0 1) (rat 0 1)) "E".

(** A block whose latitude hemisphere flag is missing. *)
Definition gps_no_lat_ref : gps_info :=
  {| GPSLatitude := Some (dms (rat 1 1) (rat 0 1) (rat 0 1));
     GPSLatitudeRef := None;
     GPSLongitude := Some (dms (rat 2 1) (rat 0 1) (rat 0 1));
     GPSLongitudeRef := Some "E";
     gps_other_tags := false |}.

(** A block with a latitude of 100 degrees. *)
Definition gps_hundred_north : gps_info :=
  gps_block (dms (rat 100 1) (rat 0 1) (rat 0 1)) "N"
            (dms (rat 20 1) (rat 15 1) (rat 0 1)) "E".

(** A block whose hemisphere flags are not hemispheres. *)
Definition gps_lowercase_refs : gps_info :=
  gps_block (dms (rat 10 1) (rat 30 1) (rat 0 1)) "n"
            (dms (rat 20 1) (rat 15 1) (rat 0 1)) "east".

(** The header row of the tabular export, as text. *)
Definition header_line : string :=
  "filename,latitude,longitude" ++ Csv.lineterminator.

Definition photo (filename : string) (g : gps_info) : item :=
  {| name := filename; image := Decoded (with_gps g) |}.

(** Three photographs, the second with the zero denominator. *)
Definition batch_zero_denominator : list item :=
  [photo "a.jpg" gps_one_two; photo "b.jpg" gps_zero_denominator;
   photo "c.jpg" gps_south_east].

(** A geotagged file whose name ends in "png" but has no extension. *)
Definition batch_no_extension : list item := [photo "export_png" gps_one_two].

(** ** The sign of binary64 results *)

Lemma leb_zero_nonneg (f : float) : (0 <=? f)%float = sf_nonneg (Prim2SF f).
Proof.
  rewrite leb_spec. change (Prim2SF 0) with (S754_zero false).
  destruct (Prim2SF f) as [s|s| |s m e]; try destruct s; reflexivity.
Qed.

Lemma leb_nonpos_zero (f : float) : (f <=? 0)%float = sf_nonpos (Prim2SF f).
Proof.
  rewrite leb_spec. change (Prim2SF 0) with (S754_zero false).
  destruct (Prim2SF f) as [s|s| |s m e]; try destruct s; reflexivity.
Qed.

Lemma shr_1_nonneg mrs : 0 <= shr_m mrs -> 0 <= shr_m (shr_1 mrs).
Proof.
  destruct mrs as [m r s]; simpl. intros H.
  destruct m as [|p|p]; [simpl; lia| |lia].
  destruct p; simpl; lia.
Qed.

Lemma iter_shr_1_nonneg p : forall mrs, 0 <= shr_m mrs -> 0 <= shr_m (iter_pos shr_1 p mrs).
Proof.
  induction p; intros mrs H; simpl.
  - apply IHp, IHp, shr_1_nonneg, H.
  - apply IHp, IHp, H.
  - apply shr_1_nonneg, H.
Qed.

Lemma shr_fexp_nonneg m e l :
  0 <= m -> 0 <= shr_m (fst (shr_fexp prec emax m e l)).
Proof.
  intros H. unfold shr_fexp, shr.
  assert (H0 : 0 <= shr_m (shr_record_of_loc m l)).
  { destruct l as [|[ | | ]]; exact H. }
  destruct (fexp prec emax (Zdigits2 m + e) - e); simpl; auto.
  apply iter_shr_1_nonneg, H0.
Qed.

Lemma round_nearest_even_nonneg m l : 0 <= m -> 0 <= round_nearest_even m l.
Proof.
  intros H. destruct l as [|[ | | ]]; simpl; try lia.
  destruct (Z.even m); lia.
Qed.

Lemma binary_round_aux_nonneg m e l :
  0 <= m -> sf_nonneg (binary_round_aux prec emax false m e l) = true.
Proof.
  intros H. unfold binary_round_aux.
  pose proof (shr_fexp_nonneg m e l H) as H1.
  destruct (shr_fexp prec emax m e l) as [mrs' e']. simpl in H1.
  pose proof (shr_fexp_nonneg _ e' loc_Exact
                (round_nearest_even_nonneg _ (loc_of_shr_record mrs') H1)) as H2.
  destruct (shr_fexp prec emax _ e' loc_Exact) as [mrs'' e'']. simpl in H2.
  destruct (shr_m mrs'') as [|p|p]; [reflexivity| |lia].
  destruct (e'' <=? emax - prec)%Z; reflexivity.
Qed.

Lemma binary_round_nonneg m e : sf_nonneg (binary_round prec emax false m e) = true.
Proof.
  unfold binary_round. destruct (shl_align _ _ _) as [mz ez].
  apply binary_round_aux_nonneg. lia.
Qed.

Lemma binary_normalize_nonneg m e s :
  0 <= m -> sf_nonneg (binary_normalize prec emax m e s) = true.
Proof.
  intros H. destruct m as [|p|p]; simpl; [reflexivity| |lia].
  apply binary_round_nonneg.
Qed.

Lemma SFadd_nonneg x y :
  sf_nonneg x = true -> sf_nonneg y = true -> sf_nonneg (SFadd prec emax x y) = true.
Proof.
  destruct x as [sx|sx| |sx mx ex], y as [sy|sy| |sy my ey]; simpl;
    try discriminate; try (destruct sx; try discriminate);
    try (destruct sy; try discriminate); try reflexivity.
  intros _ _. apply binary_normalize_nonneg. simpl. lia.
Qed.

Lemma SFdiv_nonneg x my ey :
  sf_nonneg x = true ->
  sf_nonneg (SFdiv prec emax x (S754_finite false my ey)) = true.
Proof.
  destruct x as [sx|sx| |sx mx ex]; simpl; try discriminate;
    try (destruct sx; try discriminate; reflexivity).
  destruct sx; try discriminate. intros _.
  unfold SFdiv_core_binary.
  match goal with |- context [Z.div_eucl ?a ?b] =>
    pose proof (Z_div_mod a b eq_refl) as Hd;
    assert (Ha : 0 <= a) by
      (destruct (ex - ey - _) eqn:E; try lia; rewrite Z.shiftl_mul_pow2 by lia;
       apply Z.mul_nonneg_nonneg; [lia | apply Z.pow_nonneg; lia]);
    destruct (Z.div_eucl a b) as [q r]
  end.
  apply binary_round_aux_nonneg. simpl. nia.
Qed.

Lemma SF2Prim_nonneg x :
  sf_nonneg x = true -> sf_nonneg (Prim2SF (SF2Prim x)) = true.
Proof.
  destruct x as [[|]|[|]| |[|] m e]; try discriminate; try reflexivity.
  intros _. unfold SF2Prim.
  rewrite Z_ldexp_spec, of_uint63_spec.
  pose proof (Uint63.to_Z_bounded (Uint63.of_Z (Z.pos m))) as Hb.
  pose proof (binary_normalize_nonneg (Uint63.to_Z (Uint63.of_Z (Z.pos m))) 0 false
                (proj1 Hb)) as Hn.
  destruct (binary_normalize prec emax _ 0 false) as [s|s| |s m' e'];
    try discriminate; try exact Hn.
  destruct s; try discriminate. apply binary_round_nonneg.
Qed.

Lemma opp_nonneg_nonpos x : sf_nonneg x = true -> sf_nonpos (SFopp x) = true.
Proof. destruct x as [s|s| |s m e]; simpl; try discriminate; try destruct s; auto. Qed.

(** A float that is at most a positive finite bound stays above the
    opposite bound once it is known to be non-negative, and symmetrically. *)
Lemma nonneg_above_neg x m e :
  sf_nonneg x = true -> SFleb (S754_finite true m e) x = true.
Proof. destruct x as [s|s| |s m' e']; simpl; try discriminate; destruct s; try discriminate; reflexivity. Qed.

Lemma nonpos_below_pos x m e :
  sf_nonpos x = true -> SFleb x (S754_finite false m e) = true.
Proof. destruct x as [s|s| |s m' e']; simpl; try discriminate; destruct s; try discriminate; reflexivity. Qed.

Lemma SFleb_opp x y : SFleb (SFopp x) (SFopp y) = SFleb y x.
Proof.
  unfold SFleb.
  destruct x as [[|]|[|]| |[|] mx ex], y as [[|]|[|]| |[|] my ey]; try reflexivity;
    simpl; rewrite (Z.compare_antisym ex ey);
    destruct (ex ?= ey)%Z eqn:E; simpl; try reflexivity;
    assert (Hp : Pos.compare_cont Eq my mx = CompOpp (Pos.compare_cont Eq mx my))
      by (symmetry; apply (Pos.compare_cont_antisym mx my Eq));
    rewrite Hp; destruct (Pos.compare_cont Eq mx my); reflexivity.
Qed.

(** ** The converter *)

Lemma finite_or_overflow_nonneg x f :
  sf_nonneg x = true -> finite_or_overflow x = Ok f -> (0 <=? f)%float = true.
Proof.
  intros Hx Hf. rewrite leb_zero_nonneg.
  assert (Hv : f = SF2Prim x).
  { destruct x; cbv beta iota delta [finite_or_overflow] in Hf; congruence. }
  rewrite Hv. apply SF2Prim_nonneg, Hx.
Qed.

Lemma float_of_int_nonneg n f :
  0 <= n -> float_of_int n = Ok f -> (0 <=? f)%float = true.
Proof.
  intros Hn. apply finite_or_overflow_nonneg, binary_normalize_nonneg, Hn.
Qed.

Lemma int_truediv_nonneg n d f :
  0 <= n -> 0 < d -> int_truediv n d = Ok f -> (0 <=? f)%float = true.
Proof.
  intros Hn Hd. unfold int_truediv.
  destruct (Z.eqb_spec d 0) as [->|_]; [lia|].
  apply finite_or_overflow_nonneg.
  destruct d as [|q|q]; try lia. simpl int_as_spec at 2.
  apply SFdiv_nonneg. destruct n; try lia; reflexivity.
Qed.

Lemma to_float_nonneg v f :
  nonneg_rational v = true -> Main.to_float v = Ok f -> (0 <=? f)%float = true.
Proof.
  destruct v as [|n|x|items]; simpl; try discriminate.
  - intros Hn. unfold Main.to_float. simpl.
    destruct (float_of_int n) as [y|e] eqn:E.
    + intros [= <-]. apply (float_of_int_nonneg n); [lia | exact E].
    + unfold float_of_int, finite_or_overflow in E.
      destruct (binary_normalize prec emax n 0 false); try discriminate;
        injection E as <-; discriminate.
  - intros Hx [= <-]. exact Hx.
  - destruct items as [|[|n|x|l] [|[|d|y|l'] [|? ?]]]; try discriminate.
    intros H. apply andb_prop in H as [Hn Hd].
    unfold Main.to_float. simpl. apply int_truediv_nonneg; lia.
Qed.

Lemma degrees_nonneg d m s :
  (0 <=? d)%float = true -> (0 <=? m)%float = true -> (0 <=? s)%float = true ->
  (0 <=? d + m / 60 + s / 3600)%float = true.
Proof.
  rewrite !leb_zero_nonneg. intros Hd Hm Hs.
  rewrite !add_spec, !div_spec. unfold SF64add, SF64div.
  apply SFadd_nonneg; [apply SFadd_nonneg; [exact Hd|]|].
  - change (Prim2SF 60) with (S754_finite false 8444249301319680 (-47)).
    apply SFdiv_nonneg, Hm.
  - change (Prim2SF 3600) with (S754_finite false 7916483719987200 (-41)).
    apply SFdiv_nonneg, Hs.
Qed.

Lemma convert_to_degrees_nonneg v x :
  valid_magnitude v = true -> Main.convert_to_degrees v = Ok x ->
  (0 <=? x)%float = true.
Proof.
  destruct v as [| | |[|d [|m [|s [|? ?]]]]]; try discriminate.
  simpl valid_magnitude. intros H.
  apply andb_prop in H as [H Hs]. apply andb_prop in H as [Hd Hm].
  unfold Main.convert_to_degrees. simpl.
  destruct (Main.to_float d) as [fd|] eqn:Ed; try discriminate. simpl.
  destruct (Main.to_float m) as [fm|] eqn:Em; try discriminate. simpl.
  destruct (Main.to_float s) as [fs|] eqn:Es; try discriminate. simpl.
  intros [= <-].
  apply degrees_nonneg; eauto using to_float_nonneg.
Qed.

(** What a successful conversion of the desktop application consists of. *)
Lemma get_coordinates_inv exif lat lon :
  Main.get_coordinates exif = Ok (Some (lat, lon)) ->
  exists gps x y,
    GPSInfo exif = Some gps
    /\ truthy_ref (GPSLatitudeRef gps) = true
    /\ truthy_ref (GPSLongitudeRef gps) = true
    /\ Main.convert_to_degrees (dict_get (GPSLatitude gps)) = Ok x
    /\ Main.convert_to_degrees (dict_get (GPSLongitude gps)) = Ok y
    /\ lat = (if ref_ne (GPSLatitudeRef gps) "N" then - x else x)%float
    /\ lon = (if ref_ne (GPSLongitudeRef gps) "E" then - y else y)%float.
Proof.
  unfold Main.get_coordinates.
  destruct (GPSInfo exif) as [gps|]; try discriminate.
  destruct (negb (gps_nonempty gps)); try discriminate.
  destruct (truthy (dict_get (GPSLatitude gps))); try discriminate.
  destruct (truthy (dict_get (GPSLongitude gps))); try discriminate.
  destruct (truthy_ref (GPSLatitudeRef gps)) eqn:Hlat; try discriminate.
  destruct (truthy_ref (GPSLongitudeRef gps)) eqn:Hlon; try discriminate.
  simpl.
  destruct (Main.convert_to_degrees (dict_get (GPSLatitude gps))) as [x|] eqn:Ex;
    try discriminate. simpl.
  destruct (Main.convert_to_degrees (dict_get (GPSLongitude gps))) as [y|] eqn:Ey;
    try discriminate. simpl.
  intros [= <- <-]. exists gps, x, y. repeat split; auto.
Qed.

(** The web application's component conversion is the desktop one with a
    guard in front: where it yields a number, so does the other. *)
Lemma to_float_agrees r shown f shown' :
  Streamlit.to_float r shown = (Ok f, shown') -> Main.to_float r = Ok f.
Proof.
  unfold Streamlit.to_float, Main.to_float.
  destruct (py_float r) as [x|e] eqn:E.
  - unfold Streamlit.lift. congruence.
  - destruct r as [|n|x|items]; simpl in E.
    + injection E as <-. discriminate.
    + destruct e; simpl; unfold Streamlit.lift; rewrite ?E; congruence.
    + discriminate.
    + injection E as <-.
      destruct items as [|r0 [|r1 [|? ?]]]; try discriminate.
      destruct (is_number r0 && is_number r1 && ne_zero r1); try discriminate.
      unfold Streamlit.lift. simpl. congruence.
Qed.

Lemma convert_to_degrees_agrees v shown x shown' :
  Streamlit.convert_to_degrees v shown = (Ok x, shown') ->
  Main.convert_to_degrees v = Ok x.
Proof.
  unfold Streamlit.convert_to_degrees, Main.convert_to_degrees.
  unfold Streamlit.st_bind, Streamlit.lift, Streamlit.ret.
  destruct (getitem v 0) as [v0|]; try discriminate. simpl.
  destruct (Streamlit.to_float v0 shown) as [[d|] s0] eqn:E0; try discriminate.
  rewrite (to_float_agrees _ _ _ _ E0). simpl.
  destruct (getitem v 1) as [v1|]; try discriminate. simpl.
  destruct (Streamlit.to_float v1 s0) as [[m|] s1] eqn:E1; try discriminate.
  rewrite (to_float_agrees _ _ _ _ E1). simpl.
  destruct (getitem v 2) as [v2|]; try discriminate. simpl.
  destruct (Streamlit.to_float v2 s1) as [[s|] s2] eqn:E2; try discriminate.
  rewrite (to_float_agrees _ _ _ _ E2). simpl.
  congruence.
Qed.

Lemma get_coordinates_agrees exif shown c shown' :
  Streamlit.get_coordinates (Some exif) shown = (Ok (Some c), shown') ->
  Main.get_coordinates exif = Ok (Some c).
Proof.
  unfold Streamlit.get_coordinates, Main.get_coordinates.
  destruct (negb (exif_nonempty exif)); [discriminate|].
  destruct (GPSInfo exif) as [gps|]; [|discriminate].
  destruct (negb (gps_nonempty gps)); [discriminate|].
  destruct (truthy (dict_get (GPSLatitude gps)) && truthy (dict_get (GPSLongitude gps))
            && truthy_ref (GPSLatitudeRef gps) && truthy_ref (GPSLongitudeRef gps));
    [|discriminate].
  unfold Streamlit.try_except, Streamlit.st_bind, Streamlit.ret.
  destruct (Streamlit.convert_to_degrees (dict_get (GPSLatitude gps)) shown)
    as [[x|e] s0] eqn:E0.
  - rewrite (convert_to_degrees_agrees _ _ _ _ E0). simpl.
    destruct (Streamlit.convert_to_degrees (dict_get (GPSLongitude gps)) s0)
      as [[y|e] s1] eqn:E1.
    + rewrite (convert_to_degrees_agrees _ _ _ _ E1). simpl. congruence.
    + destruct e; unfold Streamlit.show; simpl; discriminate.
  - destruct e; unfold Streamlit.show; simpl; discriminate.
Qed.

Lemma converts_main exif lat lon :
  converts exif lat lon -> Main.get_coordinates exif = Ok (Some (lat, lon)).
Proof.
  intros [H|(shown & shown' & H)]; [exact H|].
  exact (get_coordinates_agrees _ _ _ _ H).
Qed.

Lemma ref_ne_same s : ref_ne (Some s) s = false.
Proof. simpl. now rewrite String.eqb_refl. Qed.

(** ** The claims about the converter *)

(** C2: the block with latitude ((10,1),(30,1),(0,1)) S and longitude
    ((20,1),(15,1),(0,1)) E converts to exactly (-10.5, 20.25), in the
    desktop and in the web application. *)
Theorem south_east_block_converts :
  Main.get_coordinates (with_gps gps_south_east) = Ok (Some (-10.5, 20.25)%float)
  /\ Streamlit.get_coordinates (Some (with_gps gps_south_east)) []
     = (Ok (Some (-10.5, 20.25)%float), []).
Proof. split; vm_compute; reflexivity. Qed.

(** C3: for a valid GpsBlock that the Converter accepts, hemisphere S gives
    a latitude at most zero and N one at least zero; W gives a longitude at
    most zero and E one at least zero. *)
Theorem hemisphere_sign_law exif gps lat lon :
  GPSInfo exif = Some gps ->
  valid_gps gps = true ->
  converts exif lat lon ->
  (GPSLatitudeRef gps = Some "S" -> (lat <=? 0)%float = true)
  /\ (GPSLatitudeRef gps = Some "N" -> (0 <=? lat)%float = true)
  /\ (GPSLongitudeRef gps = Some "W" -> (lon <=? 0)%float = true)
  /\ (GPSLongitudeRef gps = Some "E" -> (0 <=? lon)%float = true).
Proof.
  intros Hgps Hvalid Hconv.
  apply converts_main, get_coordinates_inv in Hconv.
  destruct Hconv as (gps' & x & y & Hgps' & _ & _ & Hx & Hy & -> & ->).
  assert (gps' = gps) as -> by congruence.
  unfold valid_gps in Hvalid.
  apply andb_prop in Hvalid as [Hvalid _]. apply andb_prop in Hvalid as [Hvalid _].
  apply andb_prop in Hvalid as [Hlat Hlon].
  pose proof (convert_to_degrees_nonneg _ _ Hlat Hx) as Hx0.
  pose proof (convert_to_degrees_nonneg _ _ Hlon Hy) as Hy0.
  rewrite leb_zero_nonneg in Hx0, Hy0.
  repeat split; intros ->; simpl.
  - rewrite leb_nonpos_zero, opp_spec. apply opp_nonneg_nonpos, Hx0.
  - rewrite leb_zero_nonneg. exact Hx0.
  - rewrite leb_nonpos_zero, opp_spec. apply opp_nonneg_nonpos, Hy0.
  - rewrite leb_zero_nonneg. exact Hy0.
Qed.

Lemma hemisphere_sign_law_witness :
  valid_gps gps_south_east = true
  /\ ((-10.5 <=? 0)%float = true)
  /\ (0 <=? 20.25)%float = true.
Proof.
  assert (Hconv : converts (with_gps gps_south_east) (-10.5)%float 20.25%float)
    by (left; vm_compute; reflexivity).
  destruct (hemisphere_sign_law (with_gps gps_south_east) gps_south_east
              (-10.5)%float 20.25%float eq_refl eq_refl Hconv)
    as (HS & _ & _ & HE).
  split; [reflexivity|].
  split; [exact (HS eq_refl) | exact (HE eq_refl)].
Defined.

Lemma convert_to_degrees_truthy v x :
  Main.convert_to_degrees v = Ok x -> truthy v = true.
Proof.
  unfold Main.convert_to_degrees.
  destruct v as [| | |[|? ?]]; try discriminate. reflexivity.
Qed.

Lemma truthy_ref_some s : s <> EmptyString -> truthy_ref (Some s) = true.
Proof. destruct s; [congruence | reflexivity]. Qed.

Lemma gps_nonempty_lat_ref gps r :
  GPSLatitudeRef gps = Some r -> gps_nonempty gps = true.
Proof. unfold gps_nonempty. intros ->. destruct (GPSLatitude gps); reflexivity. Qed.

(** The conversion of the desktop application, once both magnitudes
    convert and both flags are non-empty strings. *)
Lemma get_coordinates_main exif gps lat_ref lon_ref x y :
  GPSInfo exif = Some gps ->
  GPSLatitudeRef gps = Some lat_ref -> lat_ref <> EmptyString ->
  GPSLongitudeRef gps = Some lon_ref -> lon_ref <> EmptyString ->
  Main.convert_to_degrees (dict_get (GPSLatitude gps)) = Ok x ->
  Main.convert_to_degrees (dict_get (GPSLongitude gps)) = Ok y ->
  Main.get_coordinates exif
  = Ok (Some ((if String.eqb lat_ref "N" then x else - x)%float,
              (if String.eqb lon_ref "E" then y else - y)%float)).
Proof.
  intros Hgps Hr1 Hn1 Hr2 Hn2 Hx Hy.
  unfold Main.get_coordinates.
  rewrite Hgps, (gps_nonempty_lat_ref _ _ Hr1), Hr1, Hr2, Hx, Hy.
  rewrite (convert_to_degrees_truthy _ _ Hx), (convert_to_degrees_truthy _ _ Hy).
  rewrite !truthy_ref_some by assumption. simpl.
  destruct (String.eqb lat_ref "N"), (String.eqb lon_ref "E"); reflexivity.
Qed.

(** The same for the web application. *)
Lemma get_coordinates_streamlit exif gps lat_ref lon_ref shown x s1 y s2 :
  GPSInfo exif = Some gps ->
  GPSLatitudeRef gps = Some lat_ref -> lat_ref <> EmptyString ->
  GPSLongitudeRef gps = Some lon_ref -> lon_ref <> EmptyString ->
  Streamlit.convert_to_degrees (dict_get (GPSLatitude gps)) shown = (Ok x, s1) ->
  Streamlit.convert_to_degrees (dict_get (GPSLongitude gps)) s1 = (Ok y, s2) ->
  Streamlit.get_coordinates (Some exif) shown
  = (Ok (Some ((if String.eqb lat_ref "N" then x else - x)%float,
               (if String.eqb lon_ref "E" then y else - y)%float)), s2).
Proof.
  intros Hgps Hr1 Hn1 Hr2 Hn2 Hx Hy.
  unfold Streamlit.get_coordinates, exif_nonempty.
  rewrite Hgps, (gps_nonempty_lat_ref _ _ Hr1), Hr1, Hr2.
  rewrite (convert_to_degrees_truthy _ _ (convert_to_degrees_agrees _ _ _ _ Hx)).
  rewrite (convert_to_degrees_truthy _ _ (convert_to_degrees_agrees _ _ _ _ Hy)).
  rewrite !truthy_ref_some by assumption.
  unfold Streamlit.try_except, Streamlit.st_bind, Streamlit.ret.
  simpl. rewrite Hx, Hy. simpl.
  destruct (String.eqb lat_ref "N"), (String.eqb lon_ref "E"); reflexivity.
Qed.

(** C10: the hemisphere flags are not validated.  Whatever non-empty
    strings they hold, a block whose magnitudes convert is accepted; its
    latitude is negated unless the flag is exactly N, its longitude unless
    the flag is exactly E.  This holds for both applications. *)
Theorem hemisphere_flags_not_validated exif gps lat_ref lon_ref x y :
  GPSInfo exif = Some gps ->
  GPSLatitudeRef gps = Some lat_ref -> lat_ref <> EmptyString ->
  GPSLongitudeRef gps = Some lon_ref -> lon_ref <> EmptyString ->
  Main.convert_to_degrees (dict_get (GPSLatitude gps)) = Ok x ->
  Main.convert_to_degrees (dict_get (GPSLongitude gps)) = Ok y ->
  let latitude := (if String.eqb lat_ref "N" then x else - x)%float in
  let longitude := (if String.eqb lon_ref "E" then y else - y)%float in
  Main.get_coordinates exif = Ok (Some (latitude, longitude))
  /\ (lat_ref <> "N" -> latitude = (- x)%float)
  /\ (lon_ref <> "E" -> longitude = (- y)%float)
  /\ forall shown s1 s2,
       Streamlit.convert_to_degrees (dict_get (GPSLatitude gps)) shown = (Ok x, s1) ->
       Streamlit.convert_to_degrees (dict_get (GPSLongitude gps)) s1 = (Ok y, s2) ->
       Streamlit.get_coordinates (Some exif) shown = (Ok (Some (latitude, longitude)), s2).
Proof.
  intros Hgps Hr1 Hn1 Hr2 Hn2 Hx Hy latitude longitude.
  split; [eapply get_coordinates_main; eassumption|].
  split; [|split].
  - intros Hne. subst latitude.
    destruct (String.eqb_spec lat_ref "N"); [contradiction | reflexivity].
  - intros Hne. subst longitude.
    destruct (String.eqb_spec lon_ref "E"); [contradiction | reflexivity].
  - intros shown s1 s2 Hx' Hy'.
    eapply get_coordinates_streamlit; eassumption.
Qed.

Lemma hemisphere_flags_not_validated_witness :
  Main.get_coordinates (with_gps gps_lowercase_refs)
  = Ok (Some (-10.5, -20.25)%float)
  /\ Streamlit.get_coordinates (Some (with_gps gps_lowercase_refs)) []
     = (Ok (Some (-10.5, -20.25)%float), []).
Proof.
  destruct (hemisphere_flags_not_validated (with_gps gps_lowercase_refs)
              gps_lowercase_refs "n" "east" 10.5%float 20.25%float
              eq_refl eq_refl ltac:(discriminate) eq_refl ltac:(discriminate)
              eq_refl eq_refl)
    as (Hmain & _ & _ & Hweb).
  split; [exact Hmain|].
  exact (Hweb [] [] [] eq_refl eq_refl).
Defined.

(** C7, as stated, fails: nothing in the Converter checks the range.  A
    latitude magnitude of 100 degrees is accepted and yields latitude 100. *)
Lemma coordinate_range_counterexample :
  converts (with_gps gps_hundred_north) 100 20.25
  /\ in_range 100 20.25 = false.
Proof. split; [left; vm_compute; reflexivity | reflexivity]. Qed.

Lemma signed_in_bound (flip : bool) x (bound : float) m e :
  Prim2SF bound = S754_finite false m e ->
  (0 <=? x)%float = true -> (x <=? bound)%float = true ->
  let v := (if flip then - x else x)%float in
  ((- bound <=? v) && (v <=? bound))%float = true.
Proof.
  intros Hb H0 Hle v. subst v.
  rewrite leb_zero_nonneg in H0. rewrite leb_spec in Hle.
  rewrite !leb_spec, opp_spec, Hb in *.
  destruct flip.
  - rewrite opp_spec.
    change (SFopp (S754_finite false m e)) with (S754_finite true m e).
    rewrite <- (SFleb_opp (S754_finite false m e) (Prim2SF x)) in Hle.
    change (SFopp (S754_finite false m e)) with (S754_finite true m e) in Hle.
    rewrite Hle. apply nonpos_below_pos, opp_nonneg_nonpos, H0.
  - change (SFopp (S754_finite false m e)) with (S754_finite true m e).
    rewrite Hle, nonneg_above_neg by exact H0. reflexivity.
Qed.

(** C7, amended: a Coordinate is in range whenever the magnitudes of its
    block are not negative and convert to at most 90 degrees of latitude and
    180 degrees of longitude; the Converter itself enforces no range. *)
Theorem coordinate_range_when_magnitudes_bounded exif gps x y lat lon :
  GPSInfo exif = Some gps ->
  valid_magnitude (dict_get (GPSLatitude gps)) = true ->
  valid_magnitude (dict_get (GPSLongitude gps)) = true ->
  Main.convert_to_degrees (dict_get (GPSLatitude gps)) = Ok x ->
  Main.convert_to_degrees (dict_get (GPSLongitude gps)) = Ok y ->
  (x <=? 90)%float = true ->
  (y <=? 180)%float = true ->
  converts exif lat lon ->
  in_range lat lon = true.
Proof.
  intros Hgps Hvlat Hvlon Hx Hy Hx90 Hy180 Hconv.
  apply converts_main, get_coordinates_inv in Hconv.
  destruct Hconv as (gps' & x' & y' & Hgps' & _ & _ & Hx' & Hy' & -> & ->).
  assert (gps' = gps) as -> by congruence.
  assert (x' = x) as -> by congruence.
  assert (y' = y) as -> by congruence.
  pose proof (convert_to_degrees_nonneg _ _ Hvlat Hx) as Hx0.
  pose proof (convert_to_degrees_nonneg _ _ Hvlon Hy) as Hy0.
  unfold in_range.
  pose proof (signed_in_bound (ref_ne (GPSLatitudeRef gps) "N") x 90 _ _ eq_refl Hx0 Hx90)
    as Hlat.
  pose proof (signed_in_bound (ref_ne (GPSLongitudeRef gps) "E") y 180 _ _ eq_refl Hy0 Hy180)
    as Hlon.
  cbv zeta in Hlat, Hlon.
  change (- (90))%float with (-90)%float in Hlat.
  change (- (180))%float with (-180)%float in Hlon.
  rewrite <- andb_assoc, Hlat, Hlon. reflexivity.
Qed.

Lemma coordinate_range_when_magnitudes_bounded_witness :
  in_range (-10.5) 20.25 = true.
Proof.
  refine (coordinate_range_when_magnitudes_bounded (with_gps gps_south_east)
            gps_south_east 10.5 20.25 (-10.5) 20.25
            eq_refl eq_refl eq_refl eq_refl eq_refl eq_refl eq_refl _).
  left. vm_compute. reflexivity.
Defined.

Lemma truthy_ref_none_l r1 r2 :
  r1 = None \/ r2 = None -> truthy_ref r1 && truthy_ref r2 = false.
Proof.
  intros [-> | ->]; [reflexivity|]. destruct (truthy_ref r1); reflexivity.
Qed.

Lemma missing_flag_main exif gps :
  GPSInfo exif = Some gps ->
  GPSLatitudeRef gps = None \/ GPSLongitudeRef gps = None ->
  Main.get_coordinates exif = Ok None.
Proof.
  intros Hgps Hnone. unfold Main.get_coordinates. rewrite Hgps.
  destruct (negb (gps_nonempty gps)); [reflexivity|].
  rewrite <- !andb_assoc, (truthy_ref_none_l _ _ Hnone), !andb_false_r.
  reflexivity.
Qed.

Lemma missing_flag_streamlit exif gps shown :
  GPSInfo exif = Some gps ->
  GPSLatitudeRef gps = None \/ GPSLongitudeRef gps = None ->
  Streamlit.get_coordinates (Some exif) shown = (Ok None, shown).
Proof.
  intros Hgps Hnone. unfold Streamlit.get_coordinates. rewrite Hgps.
  destruct (negb (exif_nonempty exif)); [reflexivity|].
  destruct (negb (gps_nonempty gps)); [reflexivity|].
  rewrite <- !andb_assoc, (truthy_ref_none_l _ _ Hnone), !andb_false_r.
  reflexivity.
Qed.

(** *** One step of each extraction loop *)

Lemma main_step_none coordinates n exif :
  Main.get_coordinates exif = Ok None ->
  Main.extract_step coordinates {| name := n; image := Decoded exif |} = Ok coordinates.
Proof.
  intros H. unfold Main.extract_step. cbn [name image Main.get_exif_data bind].
  rewrite H. cbn [bind].
  destruct (endswith_any _ _); [destruct (exif_nonempty exif)|]; reflexivity.
Qed.

Lemma main_step_some coordinates n exif lat lon :
  endswith_any (lower n) ["jpg"; "jpeg"; "png"] = true ->
  Main.get_coordinates exif = Ok (Some (lat, lon)) ->
  Main.extract_step coordinates {| name := n; image := Decoded exif |}
  = Ok (coordinates ++ [(n, lat, lon, "")])%list.
Proof.
  intros Hn H. unfold Main.extract_step. cbn [name image Main.get_exif_data bind].
  rewrite Hn, H. cbn [bind].
  destruct (get_coordinates_inv _ _ _ H) as (gps & _ & _ & Hgps & _).
  unfold exif_nonempty. rewrite Hgps. reflexivity.
Qed.

Lemma main_step_raise coordinates n exif e :
  endswith_any (lower n) ["jpg"; "jpeg"; "png"] = true ->
  exif_nonempty exif = true ->
  Main.get_coordinates exif = Raise e ->
  Main.extract_step coordinates {| name := n; image := Decoded exif |} = Raise e.
Proof.
  intros Hn Hne H. unfold Main.extract_step. cbn [name image Main.get_exif_data bind].
  rewrite Hn, Hne, H. reflexivity.
Qed.

Lemma streamlit_step_none coordinates n exif shown :
  (forall s, exists s', Streamlit.get_coordinates (Some exif) s = (Ok None, s')) ->
  exists shown',
    Streamlit.extract_step coordinates {| name := n; image := Decoded exif |} shown
    = (Ok coordinates, shown').
Proof.
  intros H. unfold Streamlit.extract_step.
  cbn [name image Streamlit.get_exif_data].
  destruct (negb (endswith_any _ _)).
  - eexists. reflexivity.
  - unfold Streamlit.st_bind, Streamlit.show, Streamlit.ret.
    destruct (exif_nonempty exif); [|eexists; reflexivity].
    destruct (H (shown ++ [Streamlit.status_processing n])%list) as [s' ->].
    eexists. reflexivity.
Qed.

Lemma streamlit_step_some coordinates n exif lat lon shown :
  endswith_any (lower n) [".jpg"; ".jpeg"; ".png"] = true ->
  (forall s, exists s',
      Streamlit.get_coordinates (Some exif) s = (Ok (Some (lat, lon)), s')) ->
  exists shown',
    Streamlit.extract_step coordinates {| name := n; image := Decoded exif |} shown
    = (Ok (coordinates ++ [(n, lat, lon)])%list, shown').
Proof.
  intros Hn H. unfold Streamlit.extract_step.
  cbn [name image Streamlit.get_exif_data]. rewrite Hn. cbn [negb].
  unfold Streamlit.st_bind, Streamlit.show, Streamlit.ret.
  destruct (H (shown ++ [Streamlit.status_processing n])%list) as [s' Hs'].
  assert (Hne : exif_nonempty exif = true).
  { destruct (get_coordinates_inv _ _ _ (get_coordinates_agrees _ _ _ _ Hs'))
      as (gps & _ & _ & Hgps & _).
    unfold exif_nonempty. now rewrite Hgps. }
  rewrite Hne, Hs'. eexists. reflexivity.
Qed.

Lemma streamlit_step_skip coordinates uploaded_file shown :
  endswith_any (lower (name uploaded_file)) [".jpg"; ".jpeg"; ".png"] = false ->
  Streamlit.extract_step coordinates uploaded_file shown
  = (Ok coordinates, (shown ++ [Streamlit.warning_skipping (name uploaded_file)])%list).
Proof.
  intros Hn. unfold Streamlit.extract_step. rewrite Hn. reflexivity.
Qed.

(** C5: a block that lacks its latitude or its longitude hemisphere flag
    yields no Coordinate, in either application, and raises nothing.  In a
    batch of three files, A converting to (1.0, 2.0), B without a GPS block
    and C without its latitude flag, only A's Coordinate is collected. *)
Theorem missing_hemisphere_flag exif gps a b c exif_b gps_c :
  GPSInfo exif = Some gps ->
  GPSLatitudeRef gps = None \/ GPSLongitudeRef gps = None ->
  endswith_any (lower a) ["jpg"; "jpeg"; "png"] = true ->
  endswith_any (lower a) [".jpg"; ".jpeg"; ".png"] = true ->
  GPSInfo exif_b = None ->
  GPSLatitudeRef gps_c = None ->
  let batch :=
    [photo a gps_one_two; {| name := b; image := Decoded exif_b |}; photo c gps_c] in
  Main.get_coordinates exif = Ok None
  /\ (forall shown, Streamlit.get_coordinates (Some exif) shown = (Ok None, shown))
  /\ Main.extract_coordinates batch = Ok [(a, 1, 2, "")%float]
  /\ fst (Streamlit.extract_coordinates batch) = Ok [(a, 1, 2)%float].
Proof.
  intros Hgps Hnone Ha Ha' Hb Hc batch.
  split; [eapply missing_flag_main; eassumption|].
  split; [intros shown; eapply missing_flag_streamlit; eassumption|].
  split.
  - unfold Main.extract_coordinates, batch, photo. cbn [Main.extract_loop].
    rewrite (main_step_some _ _ _ 1 2 Ha) by (vm_compute; reflexivity).
    cbn [bind app].
    rewrite main_step_none by (unfold Main.get_coordinates; now rewrite Hb).
    cbn [bind].
    rewrite main_step_none by (apply (missing_flag_main _ gps_c); auto).
    reflexivity.
  - unfold Streamlit.extract_coordinates, batch, photo. cbn [Streamlit.extract_loop].
    unfold Streamlit.st_bind.
    destruct (streamlit_step_some [] a (with_gps gps_one_two) 1 2 [] Ha') as [s1 ->].
    { intros s. eexists. vm_compute. reflexivity. }
    cbv beta iota.
    match goal with |- context [Streamlit.extract_step ?cs _ s1] =>
      destruct (streamlit_step_none cs b exif_b s1) as [s2 ->] end.
    { intros s. eexists. unfold Streamlit.get_coordinates. rewrite Hb.
      destruct (negb (exif_nonempty exif_b)); reflexivity. }
    cbv beta iota.
    match goal with |- context [Streamlit.extract_step ?cs _ s2] =>
      destruct (streamlit_step_none cs c (with_gps gps_c) s2) as [s3 ->] end.
    { intros s. eexists. apply (missing_flag_streamlit _ gps_c); auto. }
    reflexivity.
Qed.

Lemma missing_hemisphere_flag_witness :
  Main.extract_coordinates
    [photo "A.jpg" gps_one_two;
     {| name := "B.jpg"; image := Decoded {| GPSInfo := None; other_tags := true |} |};
     photo "C.jpg" gps_no_lat_ref]
  = Ok [("A.jpg", 1, 2, "")%float].
Proof.
  exact (proj1 (proj2 (proj2
    (missing_hemisphere_flag (with_gps gps_no_lat_ref) gps_no_lat_ref
       "A.jpg" "B.jpg" "C.jpg" {| GPSInfo := None; other_tags := true |}
       gps_no_lat_ref eq_refl (or_introl eq_refl) eq_refl eq_refl eq_refl eq_refl)))).
Defined.

(** ** The serializers *)

Lemma string_app_assoc (a b c : string) : (a ++ b) ++ c = a ++ (b ++ c).
Proof. induction a as [|x a IH]; simpl; [reflexivity | now rewrite IH]. Qed.

Lemma string_app_nil_r (a : string) : a ++ "" = a.
Proof. induction a as [|x a IH]; simpl; [reflexivity | now rewrite IH]. Qed.

Lemma fold_left_snoc {A B} (f : A -> B) (l : list A) (init : list B) :
  fold_left (fun acc c => (acc ++ [f c])%list) l init = (init ++ map f l)%list.
Proof.
  revert init. induction l as [|c l IH]; intros init; simpl.
  - now rewrite app_nil_r.
  - rewrite IH, <- app_assoc. reflexivity.
Qed.

Lemma fold_left_append {A} (g : A -> string) (l : list A) (init : string) :
  fold_left (fun out c => out ++ g c) l init = init ++ String.concat "" (map g l).
Proof.
  revert init. induction l as [|c l IH]; intros init; simpl.
  - now rewrite string_app_nil_r.
  - rewrite IH, string_app_assoc.
    destruct l; simpl; [now rewrite !string_app_nil_r | reflexivity].
Qed.

(** The attribute table and the shapes grow together. *)
Lemma fold_left_writer {A} (values : A -> list string) (xy : A -> float * float)
      (l : list A) (w : Shapefile.writer) :
  fold_left
    (fun shp c => Shapefile.record (Shapefile.point shp (fst (xy c)) (snd (xy c))) (values c))
    l w
  = {| Shapefile.fields := Shapefile.fields w;
       Shapefile.shapes := (Shapefile.shapes w ++ map xy l)%list;
       Shapefile.records := (Shapefile.records w ++ map values l)%list |}.
Proof.
  revert w. induction l as [|c l IH]; intros w; simpl.
  - rewrite !app_nil_r. destruct w; reflexivity.
  - rewrite IH. simpl. rewrite <- !app_assoc. simpl.
    destruct (xy c). reflexivity.
Qed.

(** The text of a row of three cells: the fields in order, separated by
    commas and ended by the line terminator. *)
Lemma writerow_three (a b c : Csv.cell) :
  Csv.writerow [a; b; c]
  = Csv.field_text (Csv.cell_text a) ++ ","
    ++ Csv.field_text (Csv.cell_text b) ++ ","
    ++ Csv.field_text (Csv.cell_text c) ++ Csv.lineterminator.
Proof.
  unfold Csv.writerow. simpl.
  destruct (Csv.field_text (Csv.cell_text a)); simpl;
    rewrite ?string_app_assoc; simpl; rewrite ?string_app_assoc; reflexivity.
Qed.

Lemma fold_left_ext {A B} (f g : B -> A -> B) (l : list A) (init : B) :
  (forall b a, f b a = g b a) -> fold_left f l init = fold_left g l init.
Proof.
  intros H. revert init. induction l as [|c l IH]; intros init; simpl;
    [reflexivity | now rewrite H, IH].
Qed.

Lemma close_balanced (w : Shapefile.writer) :
  List.length (Shapefile.records w) = List.length (Shapefile.shapes w) ->
  Shapefile.close w = Ok w.
Proof. intros H. unfold Shapefile.close. rewrite H, Nat.eqb_refl. reflexivity. Qed.

(** The three exports of the desktop application. *)
Lemma main_exports (coords : list Main.coordinate) :
  Main.save_to_kml coords
  = map (fun '(fn, lat, lon, _) => {| Kml.name := fn; Kml.coords := [(lon, lat)] |}) coords
  /\ Main.save_to_shapefile coords
     = Ok {| Shapefile.shp := map (fun '(_, lat, lon, _) => (lon, lat)) coords;
             Shapefile.shx := List.length coords;
             Shapefile.dbf := ([("filename", "C")], map (fun '(fn, _, _, _) => [fn]) coords);
             Shapefile.prj := "EPSG:4326" |}
  /\ Main.save_to_csv coords
     = header_line
       ++ String.concat ""
            (map (fun '(fn, lat, lon, _) =>
                    Csv.writerow [Csv.CStr fn; Csv.CFloat lat; Csv.CFloat lon]) coords).
Proof.
  split; [|split].
  - unfold Main.save_to_kml.
    erewrite fold_left_ext; [apply (fold_left_snoc _ coords [])|].
    intros b [[[fn lat] lon] d]. reflexivity.
  - unfold Main.save_to_shapefile.
    erewrite fold_left_ext;
      [rewrite (fold_left_writer (fun '(fn, _, _, _) => [fn])
                  (fun '(_, lat, lon, _) => (lon, lat)))|].
    + simpl. rewrite close_balanced by (simpl; now rewrite !length_map).
      simpl. unfold Shapefile.files. simpl. rewrite length_map. reflexivity.
    + intros b [[[fn lat] lon] d]. reflexivity.
  - unfold Main.save_to_csv.
    erewrite fold_left_ext; [apply fold_left_append|].
    intros b [[[fn lat] lon] d]. reflexivity.
Qed.

(** The three exports of the web application. *)
Lemma streamlit_exports (coords : list Streamlit.coordinate) :
  Streamlit.save_to_kml_bytes coords
  = map (fun '(fn, lat, lon) => {| Kml.name := fn; Kml.coords := [(lon, lat)] |}) coords
  /\ Streamlit.save_to_shapefile_bytes coords
     = Ok {| Shapefile.shp := map (fun '(_, lat, lon) => (lon, lat)) coords;
             Shapefile.shx := List.length coords;
             Shapefile.dbf := ([("filename", "C")], map (fun '(fn, _, _) => [fn]) coords);
             Shapefile.prj := Streamlit.prj_text |}
  /\ Streamlit.save_to_csv_bytes coords
     = header_line
       ++ String.concat ""
            (map (fun '(fn, lat, lon) =>
                    Csv.writerow [Csv.CStr fn; Csv.CFloat lat; Csv.CFloat lon]) coords).
Proof.
  split; [|split].
  - unfold Streamlit.save_to_kml_bytes.
    erewrite fold_left_ext; [apply (fold_left_snoc _ coords [])|].
    intros b [[fn lat] lon]. reflexivity.
  - unfold Streamlit.save_to_shapefile_bytes.
    erewrite fold_left_ext;
      [rewrite (fold_left_writer (fun '(fn, _, _) => [fn])
                  (fun '(_, lat, lon) => (lon, lat)))|].
    + simpl. rewrite close_balanced by (simpl; now rewrite !length_map).
      simpl. unfold Shapefile.files. simpl. rewrite length_map. reflexivity.
    + intros b [[fn lat] lon]. reflexivity.
  - unfold Streamlit.save_to_csv_bytes.
    erewrite fold_left_ext; [apply fold_left_append|].
    intros b [[fn lat] lon]. reflexivity.
Qed.

(** The text of one data row. *)
Lemma data_row_text fn lat lon :
  Csv.writerow [Csv.CStr fn; Csv.CFloat lat; Csv.CFloat lon]
  = Csv.field_text fn ++ "," ++ Csv.field_text (float_repr lat) ++ ","
    ++ Csv.field_text (float_repr lon) ++ Csv.lineterminator.
Proof. apply writerow_three. Qed.

(** C4: the point-markup and the geometry-file-set serializers write every
    Coordinate with the longitude first, as (lon, lat), under the file's
    name; the tabular serializer writes its row as file name, latitude,
    longitude.  The outputs keep the order of the CoordinateSet.  This holds
    for the serializers of both applications. *)
Theorem export_coordinate_order
        (coords : list Main.coordinate) (uploaded : list Streamlit.coordinate) :
  Main.save_to_kml coords
  = map (fun '(fn, lat, lon, _) => {| Kml.name := fn; Kml.coords := [(lon, lat)] |}) coords
  /\ Main.save_to_shapefile coords
     = Ok {| Shapefile.shp := map (fun '(_, lat, lon, _) => (lon, lat)) coords;
             Shapefile.shx := List.length coords;
             Shapefile.dbf := ([("filename", "C")], map (fun '(fn, _, _, _) => [fn]) coords);
             Shapefile.prj := "EPSG:4326" |}
  /\ Main.save_to_csv coords
     = header_line
       ++ String.concat ""
            (map (fun '(fn, lat, lon, _) =>
                    Csv.field_text fn ++ "," ++ Csv.field_text (float_repr lat) ++ ","
                    ++ Csv.field_text (float_repr lon) ++ Csv.lineterminator) coords)
  /\ Streamlit.save_to_kml_bytes uploaded
     = map (fun '(fn, lat, lon) => {| Kml.name := fn; Kml.coords := [(lon, lat)] |}) uploaded
  /\ Streamlit.save_to_shapefile_bytes uploaded
     = Ok {| Shapefile.shp := map (fun '(_, lat, lon) => (lon, lat)) uploaded;
             Shapefile.shx := List.length uploaded;
             Shapefile.dbf := ([("filename", "C")], map (fun '(fn, _, _) => [fn]) uploaded);
             Shapefile.prj := Streamlit.prj_text |}
  /\ Streamlit.save_to_csv_bytes uploaded
     = header_line
       ++ String.concat ""
            (map (fun '(fn, lat, lon) =>
                    Csv.field_text fn ++ "," ++ Csv.field_text (float_repr lat) ++ ","
                    ++ Csv.field_text (float_repr lon) ++ Csv.lineterminator) uploaded).
Proof.
  destruct (main_exports coords) as (Hk & Hs & Hc).
  destruct (streamlit_exports uploaded) as (Hk' & Hs' & Hc').
  repeat split; try assumption.
  - rewrite Hc. do 2 f_equal. apply map_ext.
    intros [[[fn lat] lon] d]. apply data_row_text.
  - rewrite Hc'. do 2 f_equal. apply map_ext.
    intros [[fn lat] lon]. apply data_row_text.
Qed.

(** C8: each serializer accepts the empty CoordinateSet and yields an
    output without features: the tabular text is the header line alone,
    the point markup has no placemark, and the geometry file set has no
    shape, no index entry and no record under its one field. *)
Theorem empty_set_exports :
  Main.save_to_csv [] = header_line
  /\ splitlines (Main.save_to_csv []) = ["filename,latitude,longitude"]
  /\ Main.save_to_kml [] = []
  /\ Main.save_to_shapefile []
     = Ok {| Shapefile.shp := []; Shapefile.shx := 0;
             Shapefile.dbf := ([("filename", "C")], []);
             Shapefile.prj := "EPSG:4326" |}
  /\ Streamlit.save_to_csv_bytes [] = header_line
  /\ splitlines (Streamlit.save_to_csv_bytes []) = ["filename,latitude,longitude"]
  /\ Streamlit.save_to_kml_bytes [] = []
  /\ Streamlit.save_to_shapefile_bytes []
     = Ok {| Shapefile.shp := []; Shapefile.shx := 0;
             Shapefile.dbf := ([("filename", "C")], []);
             Shapefile.prj := Streamlit.prj_text |}.
Proof. repeat split; vm_compute; reflexivity. Qed.

(** C9: the tabular export of [("img1.jpg", 12.5, -1.25)] is the header
    line followed by the line img1.jpg,12.5,-1.25 and nothing else. *)
Theorem tabular_export_exact :
  Streamlit.save_to_csv_bytes [("img1.jpg", 12.5, -1.25)%float]
  = "filename,latitude,longitude" ++ Csv.lineterminator
    ++ "img1.jpg,12.5,-1.25" ++ Csv.lineterminator
  /\ splitlines (Streamlit.save_to_csv_bytes [("img1.jpg", 12.5, -1.25)%float])
     = ["filename,latitude,longitude"; "img1.jpg,12.5,-1.25"]
  /\ Main.save_to_csv [("img1.jpg", 12.5, -1.25, "")%float]
     = Streamlit.save_to_csv_bytes [("img1.jpg", 12.5, -1.25)%float].
Proof. repeat split; vm_compute; reflexivity. Qed.

(** ** The extraction loops *)

Lemma appends_ret {A} (a : A) : appends (Streamlit.ret a).
Proof. exists (Ok a), []. intros s. unfold Streamlit.ret. now rewrite app_nil_r. Qed.

Lemma appends_lift {A} (r : result A) : appends (Streamlit.lift r).
Proof. exists r, []. intros s. unfold Streamlit.lift. now rewrite app_nil_r. Qed.

Lemma appends_raise {A} (e : exn) : appends (@Streamlit.raise A e).
Proof. exists (Raise e), []. intros s. unfold Streamlit.raise. now rewrite app_nil_r. Qed.

Lemma appends_show m : appends (Streamlit.show m).
Proof. exists (Ok tt), [m]. reflexivity. Qed.

Lemma appends_bind {A B} (c : Streamlit.St A) (k : A -> Streamlit.St B) :
  appends c -> (forall a, appends (k a)) -> appends (Streamlit.st_bind c k).
Proof.
  intros (r & w & Hc) Hk. unfold Streamlit.st_bind.
  destruct r as [a|e].
  - destruct (Hk a) as (r' & w' & Hk').
    exists r', (w ++ w')%list. intros s. now rewrite Hc, Hk', app_assoc.
  - exists (Raise e), w. intros s. now rewrite Hc.
Qed.

Lemma appends_try {A} (body : Streamlit.St A) (handler : exn -> Streamlit.St A) :
  appends body -> (forall e, appends (handler e)) ->
  appends (Streamlit.try_except body handler).
Proof.
  intros (r & w & Hc) Hh. unfold Streamlit.try_except.
  destruct r as [a|e].
  - exists (Ok a), w. intros s. now rewrite Hc.
  - destruct (Hh e) as (r' & w' & Hh').
    exists r', (w ++ w')%list. intros s. now rewrite Hc, Hh', app_assoc.
Qed.

Lemma appends_to_float r : appends (Streamlit.to_float r).
Proof.
  unfold Streamlit.to_float.
  destruct (py_float r) as [x|[]]; try apply appends_lift;
    destruct r as [|n|x|[|r0 [|r1 [|? ?]]]];
    try destruct (is_number r0 && is_number r1 && ne_zero r1);
    try apply appends_lift;
    apply appends_bind; auto using appends_show; intros; apply appends_raise.
Qed.

Lemma appends_convert_to_degrees v : appends (Streamlit.convert_to_degrees v).
Proof.
  unfold Streamlit.convert_to_degrees.
  repeat (apply appends_bind;
          [first [apply appends_lift | apply appends_to_float] | intros ?]).
  apply appends_ret.
Qed.

(** The web application's conversion never raises. *)
Lemma get_coordinates_total exif_data : appends_ok (Streamlit.get_coordinates exif_data).
Proof.
  assert (Hnone : appends_ok (Streamlit.ret (@None (float * float)))).
  { exists None, []. intros s. unfold Streamlit.ret. now rewrite app_nil_r. }
  unfold Streamlit.get_coordinates.
  destruct exif_data as [exif|]; [|exact Hnone].
  destruct (negb (exif_nonempty exif)); [exact Hnone|].
  destruct (GPSInfo exif) as [gps|]; [|exact Hnone].
  destruct (negb (gps_nonempty gps)); [exact Hnone|].
  destruct (_ && _); [|exact Hnone].
  unfold Streamlit.try_except, Streamlit.st_bind.
  destruct (appends_convert_to_degrees (dict_get (GPSLatitude gps))) as (r1 & w1 & H1).
  destruct (appends_convert_to_degrees (dict_get (GPSLongitude gps))) as (r2 & w2 & H2).
  destruct r1 as [x|e1].
  - destruct r2 as [y|e2].
    + eexists _, (w1 ++ w2)%list. intros s. rewrite H1, H2, app_assoc. reflexivity.
    + destruct e2;
        (eexists None, (w1 ++ w2 ++ [_])%list; intros s; rewrite H1, H2;
         unfold Streamlit.show, Streamlit.ret; rewrite <- !app_assoc; reflexivity).
  - destruct e1;
      (eexists None, (w1 ++ [_])%list; intros s; rewrite H1;
       unfold Streamlit.show, Streamlit.ret; rewrite <- !app_assoc; reflexivity).
Qed.

(** One step of the web application's loop never raises: it adds the
    file's contribution to the CoordinateSet, whatever came before. *)
Lemma streamlit_step_contribution uploaded_file :
  exists w, forall coordinates shown,
    Streamlit.extract_step coordinates uploaded_file shown
    = (Ok (coordinates ++ contribution uploaded_file)%list, (shown ++ w)%list).
Proof.
  assert (H : exists contrib w, forall coordinates shown,
             Streamlit.extract_step coordinates uploaded_file shown
             = (Ok (coordinates ++ contrib)%list, (shown ++ w)%list)).
  { unfold Streamlit.extract_step.
    destruct (negb (endswith_any _ _)).
    - exists [], [Streamlit.warning_skipping (name uploaded_file)].
      intros c s. now rewrite app_nil_r.
    - unfold Streamlit.st_bind, Streamlit.show, Streamlit.get_exif_data.
      destruct (image uploaded_file) as [|exif].
      + exists [], [Streamlit.status_processing (name uploaded_file);
                    Streamlit.error_reading_exif UnidentifiedImageError].
        intros c s. unfold Streamlit.st_bind, Streamlit.show, Streamlit.ret.
        now rewrite app_nil_r, <- app_assoc.
      + unfold Streamlit.ret.
        destruct (exif_nonempty exif).
        * destruct (get_coordinates_total (Some exif)) as (r & w & Hr).
          destruct r as [[lat lon]|].
          -- exists [(name uploaded_file, lat, lon)],
               (Streamlit.status_processing (name uploaded_file) :: w).
             intros c s. rewrite Hr, <- app_assoc. reflexivity.
          -- exists [], (Streamlit.status_processing (name uploaded_file) :: w).
             intros c s. rewrite Hr, <- app_assoc, app_nil_r. reflexivity.
        * exists [], [Streamlit.status_processing (name uploaded_file)].
          intros c s. now rewrite app_nil_r. }
  destruct H as (contrib & w & H). exists w. intros c s.
  unfold contribution. rewrite (H [] []). simpl. apply H.
Qed.

Lemma streamlit_loop uploaded_files :
  forall coordinates shown, exists w,
    Streamlit.extract_loop coordinates uploaded_files shown
    = (Ok (coordinates ++ flat_map contribution uploaded_files)%list, (shown ++ w)%list).
Proof.
  induction uploaded_files as [|f rest IH]; intros c s.
  - exists []. simpl. unfold Streamlit.ret. now rewrite !app_nil_r.
  - destruct (streamlit_step_contribution f) as (w & Hw).
    destruct (IH (c ++ contribution f)%list (s ++ w)%list) as (w' & Hw').
    exists (w ++ w')%list. cbn [Streamlit.extract_loop flat_map].
    unfold Streamlit.st_bind. rewrite Hw, Hw', <- !app_assoc. reflexivity.
Qed.

(** The web application isolates failures: its extraction never raises,
    and the CoordinateSet is what each file contributes, in input order. *)
Lemma streamlit_extraction_isolates uploaded_files :
  fst (Streamlit.extract_coordinates uploaded_files)
  = Ok (flat_map contribution uploaded_files).
Proof.
  unfold Streamlit.extract_coordinates.
  destruct (streamlit_loop uploaded_files [] []) as (w & ->). reflexivity.
Qed.

(** Dropping a file that contributes nothing leaves the CoordinateSet of
    the web application as it is. *)
Lemma streamlit_partial_failure before uploaded_file after :
  contribution uploaded_file = [] ->
  fst (Streamlit.extract_coordinates (before ++ uploaded_file :: after))
  = fst (Streamlit.extract_coordinates (before ++ after)).
Proof.
  intros H. rewrite !streamlit_extraction_isolates, !flat_map_app.
  cbn [flat_map]. rewrite H. reflexivity.
Qed.

(** The desktop application does not: an exception raised for one entry
    ends the loop, whatever follows. *)
Lemma main_loop_raise before entry after coordinates coordinates' e :
  Main.extract_loop coordinates before = Ok coordinates' ->
  Main.extract_step coordinates' entry = Raise e ->
  Main.extract_loop coordinates (before ++ entry :: after) = Raise e.
Proof.
  revert coordinates. induction before as [|b before IH]; intros c; simpl.
  - intros [= ->] H. now rewrite H.
  - destruct (Main.extract_step c b) as [c1|e1]; simpl; [apply IH | discriminate].
Qed.

(** A zero denominator in a rational raises in the desktop application. *)
Lemma main_to_float_zero_denominator n :
  Main.to_float (rat n 0) = Raise ZeroDivisionError.
Proof. reflexivity. Qed.

(** The web application refuses it with a [ValueError], which its
    [get_coordinates] catches. *)
Lemma streamlit_to_float_zero_denominator n shown :
  Streamlit.to_float (rat n 0) shown
  = (Raise ValueError, (shown ++ [Streamlit.warning_component (rat n 0)])%list).
Proof. reflexivity. Qed.

(** C1: a zero denominator in one item of a batch.  The web application
    skips the item and keeps the other Coordinates in order; the desktop
    application raises [ZeroDivisionError] out of its extraction loop and
    collects nothing. *)
Theorem zero_denominator_in_batch :
  Main.convert_to_degrees (dms (rat 10 0) (rat 30 1) (rat 0 1)) = Raise ZeroDivisionError
  /\ Main.get_coordinates (with_gps gps_zero_denominator) = Raise ZeroDivisionError
  /\ Main.extract_coordinates batch_zero_denominator = Raise ZeroDivisionError
  /\ Streamlit.extract_coordinates batch_zero_denominator
     = (Ok [("a.jpg", 1, 2)%float; ("c.jpg", -10.5, 20.25)%float],
        [Streamlit.status_processing "a.jpg";
         Streamlit.status_processing "b.jpg";
         Streamlit.warning_component (rat 10 0);
         Streamlit.warning_parse ValueError;
         Streamlit.status_processing "c.jpg"]).
Proof. repeat split; vm_compute; reflexivity. Qed.

(** ** The extension filter *)

Lemma substring_all s : substring 0 (String.length s) s = s.
Proof. induction s as [|c s IH]; simpl; [reflexivity | now rewrite IH]. Qed.

Lemma eqb_length a : forall b, String.eqb a b = true -> String.length a = String.length b.
Proof.
  induction a as [|x a IH]; intros [|y b]; simpl; try discriminate; auto.
  destruct (Ascii.eqb x y); [|discriminate]. intros H. f_equal. auto.
Qed.

Lemma endswith_cons c r suffix :
  endswith (String c r) suffix = String.eqb (String c r) suffix || endswith r suffix.
Proof.
  unfold endswith. cbn [String.length].
  destruct (String.eqb (String c r) suffix) eqn:E.
  - apply String.eqb_eq in E. subst suffix. cbn [String.length orb].
    rewrite Nat.leb_refl, Nat.sub_diag. cbn [substring andb].
    rewrite substring_all. apply String.eqb_refl.
  - cbn [orb].
    destruct (Nat.leb_spec (String.length suffix) (String.length r)) as [Hle|Hlt].
    + rewrite (proj2 (Nat.leb_le _ _)) by lia.
      rewrite Nat.sub_succ_l by exact Hle. reflexivity.
    + cbn [andb].
      destruct (Nat.leb_spec (String.length suffix) (S (String.length r))) as [Hle|Hgt];
        [|reflexivity].
      assert (Hk : String.length suffix = S (String.length r)) by lia.
      rewrite Hk, Nat.sub_diag. cbn [substring andb].
      rewrite substring_all. exact E.
Qed.

Lemma endswith_nil suffix : endswith "" suffix = String.eqb "" suffix.
Proof. destruct suffix; reflexivity. Qed.

(** The test of the web application is the specification's: the name has
    one of the recognized extensions. *)
Lemma streamlit_filter_is_extension filename :
  endswith_any (lower filename) [".jpg"; ".jpeg"; ".png"] = has_image_extension filename.
Proof.
  unfold has_image_extension. generalize (lower filename) as s. clear filename.
  unfold endswith_any.
  induction s as [|c s IH].
  - reflexivity.
  - cbn [existsb extension]. rewrite !endswith_cons.
    cbn [existsb] in IH.
    destruct (extension s) as [e|] eqn:Ee.
    + rewrite <- IH.
      assert (Hno : forall x, In x ["jpg"; "jpeg"; "png"] ->
                              String.eqb (String c s) (String "." x) = false).
      { intros x Hx. destruct (String.eqb_spec (String c s) (String "." x)) as [Heq|];
          [|reflexivity].
        injection Heq as _ ->.
        simpl in Hx. destruct Hx as [<-|[<-|[<-|[]]]]; discriminate. }
      rewrite (Hno "jpg"), (Hno "jpeg"), (Hno "png") by (simpl; auto).
      reflexivity.
    + apply orb_false_elim in IH as [H1 IH]. apply orb_false_elim in IH as [H2 IH].
      apply orb_false_elim in IH as [H3 _].
      rewrite H1, H2, H3, !orb_false_r. cbn [String.eqb].
      destruct (Ascii.eqb c "."); cbn [existsb]; rewrite ?orb_false_r; reflexivity.
Qed.

(** C6: the desktop application tests the end of the name, not its
    extension.  A file named export_png has no extension, yet the desktop
    loop reads and converts it; the web application, which tests for the dot,
    skips it. *)
Theorem suffix_is_not_extension :
  has_image_extension "export_png" = false
  /\ endswith_any (lower "export_png") ["jpg"; "jpeg"; "png"] = true
  /\ Main.extract_coordinates batch_no_extension = Ok [("export_png", 1, 2, "")%float]
  /\ Main.extract_coordinates [{| name := "export_png"; image := Undecodable |}]
     = Raise UnidentifiedImageError
  /\ Streamlit.extract_coordinates batch_no_extension
     = (Ok [], [Streamlit.warning_skipping "export_png"]).
Proof. repeat split; vm_compute; reflexivity. Qed.

(** In the web application a file whose latitude degrees have a zero
    denominator contributes nothing, whatever else its block holds. *)
Lemma zero_denominator_contributes_nothing n a m s lat_ref lon lon_ref :
  contribution (photo n (gps_block (dms (rat a 0) m s) lat_ref lon lon_ref)) = [].
Proof.
  unfold contribution, Streamlit.extract_step, photo. cbn [name image].
  destruct (negb (endswith_any _ _)); [reflexivity|].
  unfold Streamlit.st_bind, Streamlit.show, Streamlit.get_exif_data, Streamlit.ret.
  cbn [exif_nonempty with_gps GPSInfo].
  unfold Streamlit.get_coordinates.
  cbn [exif_nonempty with_gps GPSInfo negb gps_block gps_nonempty GPSLatitude
       GPSLatitudeRef GPSLongitude GPSLongitudeRef dict_get truthy dms andb].
  destruct (truthy lon && truthy_ref (Some lat_ref) && truthy_ref (Some lon_ref));
    reflexivity.
Qed.

(** ** Further properties of the converter and of the loops *)

(** The web application's converter never raises: for every input it
    returns a pair or [None], and only adds to what is shown. *)
Theorem web_converter_never_raises exif_data shown :
  exists r w,
    Streamlit.get_coordinates exif_data shown = (Ok r, (shown ++ w)%list).
Proof.
  destruct (get_coordinates_total exif_data) as (r & w & H).
  exists r, w. apply H.
Qed.

(** The web converter is the stricter of the two: a pair it yields is the
    pair the desktop converter yields for the same dictionary. *)
Theorem web_converter_refines_desktop exif shown c shown' :
  Streamlit.get_coordinates (Some exif) shown = (Ok (Some c), shown') ->
  Main.get_coordinates exif = Ok (Some c).
Proof. apply get_coordinates_agrees. Qed.

Lemma web_converter_refines_desktop_witness :
  Main.get_coordinates (with_gps gps_south_east) = Ok (Some (-10.5, 20.25)%float).
Proof.
  exact (web_converter_refines_desktop (with_gps gps_south_east) []
           (-10.5, 20.25)%float [] eq_refl).
Defined.

(** Where the desktop converter yields [None] or raises, the web converter
    yields [None]. *)
Theorem web_converter_none_where_desktop_fails exif shown :
  Main.get_coordinates exif = Ok None \/ (exists e, Main.get_coordinates exif = Raise e) ->
  fst (Streamlit.get_coordinates (Some exif) shown) = Ok None.
Proof.
  intros Hmain.
  destruct (get_coordinates_total (Some exif)) as (r & w & H).
  rewrite H. simpl. destruct r as [c|]; [|reflexivity].
  pose proof (get_coordinates_agrees _ _ _ _ (H shown)) as Hc.
  destruct Hmain as [Hn | [e He]]; congruence.
Qed.

Lemma web_converter_none_where_desktop_fails_witness :
  fst (Streamlit.get_coordinates (Some (with_gps gps_zero_denominator)) []) = Ok None.
Proof.
  apply (web_converter_none_where_desktop_fails (with_gps gps_zero_denominator) []).
  right. exists ZeroDivisionError. reflexivity.
Defined.

(** *** What a file contributes *)

Lemma endswith_refl s : endswith s s = true.
Proof.
  unfold endswith. rewrite Nat.leb_refl, Nat.sub_diag, substring_all.
  apply String.eqb_refl.
Qed.

Lemma endswith_tail s c suffix :
  endswith s (String c suffix) = true -> endswith s suffix = true.
Proof.
  induction s as [|x r IH].
  - rewrite endswith_nil. discriminate.
  - rewrite !endswith_cons. intros H. apply orb_prop in H as [H|H].
    + apply String.eqb_eq in H. injection H as -> ->.
      rewrite endswith_refl. apply orb_true_r.
    + rewrite (IH H). apply orb_true_r.
Qed.

Lemma web_filter_implies_desktop_filter s :
  endswith_any s [".jpg"; ".jpeg"; ".png"] = true ->
  endswith_any s ["jpg"; "jpeg"; "png"] = true.
Proof.
  unfold endswith_any. cbn [existsb]. rewrite !orb_false_r.
  intros H. apply orb_prop in H as [H|H]; [|apply orb_prop in H as [H|H]];
    apply endswith_tail in H; rewrite H; rewrite ?orb_true_r; reflexivity.
Qed.

(** A file of the web application contributes nothing, or one Coordinate
    under its own name: then its name passed the filter and its image
    decoded to a dictionary that the converter accepts. *)
Lemma contribution_shape uploaded_file :
  contribution uploaded_file = []
  \/ exists exif lat lon,
       contribution uploaded_file = [(name uploaded_file, lat, lon)]
       /\ endswith_any (lower (name uploaded_file)) [".jpg"; ".jpeg"; ".png"] = true
       /\ image uploaded_file = Decoded exif
       /\ fst (Streamlit.get_coordinates (Some exif)
                 [Streamlit.status_processing (name uploaded_file)])
          = Ok (Some (lat, lon)).
Proof.
  unfold contribution, Streamlit.extract_step.
  destruct (endswith_any _ _) eqn:Hf; cbn [negb]; [|left; reflexivity].
  unfold Streamlit.st_bind, Streamlit.show, Streamlit.get_exif_data.
  destruct (image uploaded_file) as [|exif]; [left; reflexivity|].
  unfold Streamlit.ret. cbn [app].
  destruct (exif_nonempty exif); [|left; reflexivity].
  destruct (Streamlit.get_coordinates (Some exif) _) as [[[[lat lon]|]|e] s] eqn:E;
    try (left; reflexivity).
  right. exists exif, lat, lon. rewrite E. repeat split; reflexivity.
Qed.

(** The same for a directory entry of the desktop application. *)
Lemma main_contribution_shape entry :
  main_contribution entry = []
  \/ exists exif lat lon,
       main_contribution entry = [(name entry, lat, lon, "")]
       /\ endswith_any (lower (name entry)) ["jpg"; "jpeg"; "png"] = true
       /\ image entry = Decoded exif
       /\ Main.get_coordinates exif = Ok (Some (lat, lon)).
Proof.
  unfold main_contribution, Main.extract_step.
  destruct (endswith_any _ _) eqn:Hf; [|left; reflexivity].
  unfold Main.get_exif_data.
  destruct (image entry) as [|exif]; [left; reflexivity|]. cbn [bind].
  destruct (exif_nonempty exif); [|left; reflexivity].
  destruct (Main.get_coordinates exif) as [[[lat lon]|]|e] eqn:E;
    try (left; reflexivity).
  right. exists exif, lat, lon. repeat split; auto.
Qed.

(** A step of the desktop loop that does not raise appends the entry's
    contribution. *)
Lemma main_step_contribution coordinates entry coordinates' :
  Main.extract_step coordinates entry = Ok coordinates' ->
  coordinates' = (coordinates ++ main_contribution entry)%list.
Proof.
  unfold main_contribution, Main.extract_step.
  destruct (endswith_any _ _); [|intros [= <-]; now rewrite app_nil_r].
  destruct (Main.get_exif_data (image entry)) as [exif|]; [|discriminate].
  cbn [bind].
  destruct (exif_nonempty exif); [|intros [= <-]; now rewrite app_nil_r].
  destruct (Main.get_coordinates exif) as [[[lat lon]|]|e]; cbn [bind];
    try discriminate; intros [= <-]; [reflexivity | now rewrite app_nil_r].
Qed.

Lemma main_loop_contribution listing :
  forall coordinates coordinates',
    Main.extract_loop coordinates listing = Ok coordinates' ->
    coordinates' = (coordinates ++ flat_map main_contribution listing)%list.
Proof.
  induction listing as [|entry rest IH]; intros c c'; cbn [Main.extract_loop flat_map].
  - intros [= <-]. now rewrite app_nil_r.
  - destruct (Main.extract_step c entry) as [c1|e] eqn:E; [|discriminate].
    cbn [bind]. intros H. apply IH in H. subst c'.
    rewrite (main_step_contribution _ _ _ E), <- app_assoc. reflexivity.
Qed.

Lemma flat_map_length_le {A B} (f : A -> list B) (l : list A) :
  (forall a, List.length (f a) <= 1)%nat ->
  (List.length (flat_map f l) <= List.length l)%nat.
Proof.
  intros H. induction l as [|a l IH]; simpl; [lia|].
  rewrite length_app. specialize (H a). lia.
Qed.

(** The extraction of the web application never raises.  Its
    CoordinateSet holds what each file contributes, in input order: at most
    one Coordinate per file, each under the name of a file of the batch
    whose extension is a recognized one. *)
Theorem web_extraction_never_raises uploaded_files :
  fst (Streamlit.extract_coordinates uploaded_files)
  = Ok (flat_map contribution uploaded_files)
  /\ (List.length (flat_map contribution uploaded_files) <= List.length uploaded_files)%nat
  /\ forall fn lat lon,
       In (fn, lat, lon) (flat_map contribution uploaded_files) ->
       exists f, In f uploaded_files /\ name f = fn /\ has_image_extension fn = true.
Proof.
  split; [apply streamlit_extraction_isolates|]. split.
  - apply flat_map_length_le. intros f.
    destruct (contribution_shape f) as [-> | (exif & lat & lon & -> & _)]; simpl; lia.
  - intros fn lat lon Hin. apply in_flat_map in Hin as (f & Hf & Hin).
    exists f. split; [exact Hf|].
    destruct (contribution_shape f) as [H | (exif & lat' & lon' & H & Hext & _)];
      rewrite H in Hin; simpl in Hin; [contradiction|].
    destruct Hin as [[= <- <- <-]|[]].
    split; [reflexivity|]. now rewrite <- streamlit_filter_is_extension.
Qed.

(** When the extraction of the desktop application returns, its
    CoordinateSet holds what each entry contributes, in listing order: at
    most one Coordinate per entry, under the entry's name, which ends in
    jpg, jpeg or png, and with an empty placeholder. *)
Theorem desktop_extraction_in_order listing coordinates :
  Main.extract_coordinates listing = Ok coordinates ->
  coordinates = flat_map main_contribution listing
  /\ (List.length coordinates <= List.length listing)%nat
  /\ forall fn lat lon d,
       In (fn, lat, lon, d) coordinates ->
       d = ""
       /\ exists entry,
            In entry listing /\ name entry = fn
            /\ endswith_any (lower fn) ["jpg"; "jpeg"; "png"] = true.
Proof.
  intros H. apply main_loop_contribution in H. simpl in H. subst coordinates.
  split; [reflexivity|]. split.
  - apply flat_map_length_le. intros f.
    destruct (main_contribution_shape f) as [-> | (exif & lat & lon & -> & _)]; simpl; lia.
  - intros fn lat lon d Hin. apply in_flat_map in Hin as (f & Hf & Hin).
    destruct (main_contribution_shape f) as [H | (exif & lat' & lon' & H & Hext & _)];
      rewrite H in Hin; simpl in Hin; [contradiction|].
    destruct Hin as [[= <- <- <- <-]|[]].
    split; [reflexivity|]. exists f. auto.
Qed.

Lemma desktop_extraction_in_order_witness :
  [("export_png", 1, 2, "")%float] = flat_map main_contribution batch_no_extension.
Proof.
  exact (proj1 (desktop_extraction_in_order batch_no_extension
                  [("export_png", 1, 2, "")%float] eq_refl)).
Defined.

(** The desktop extraction stops at the first entry whose step raises:
    the exception leaves the loop, whatever entries follow. *)
Theorem desktop_extraction_aborts before entry after coordinates e :
  Main.extract_coordinates before = Ok coordinates ->
  Main.extract_step coordinates entry = Raise e ->
  Main.extract_coordinates (before ++ entry :: after) = Raise e.
Proof. apply main_loop_raise. Qed.

Lemma desktop_extraction_aborts_witness :
  Main.extract_coordinates
    ([photo "a.jpg" gps_one_two]
       ++ {| name := "broken.jpg"; image := Undecodable |} :: [photo "c.jpg" gps_south_east])
  = Raise UnidentifiedImageError.
Proof.
  exact (desktop_extraction_aborts [photo "a.jpg" gps_one_two]
           {| name := "broken.jpg"; image := Undecodable |}
           [photo "c.jpg" gps_south_east]
           [("a.jpg", 1, 2, "")%float] UnidentifiedImageError eq_refl eq_refl).
Defined.

(** The filter of the web application is the extension test: a name
    passes exactly when what follows its last dot is jpg, jpeg or png,
    whatever the case of its letters. *)
Theorem web_filter_is_extension_test filename :
  endswith_any (lower filename) [".jpg"; ".jpeg"; ".png"] = has_image_extension filename.
Proof. apply streamlit_filter_is_extension. Qed.

(** The filter of the desktop application accepts every name that the
    filter of the web application accepts. *)
Theorem desktop_filter_accepts_web_accepted filename :
  endswith_any (lower filename) [".jpg"; ".jpeg"; ".png"] = true ->
  endswith_any (lower filename) ["jpg"; "jpeg"; "png"] = true.
Proof. apply web_filter_implies_desktop_filter. Qed.

Lemma desktop_filter_accepts_web_accepted_witness :
  endswith_any (lower "DJI_0001.JPG") ["jpg"; "jpeg"; "png"] = true.
Proof. exact (desktop_filter_accepts_web_accepted "DJI_0001.JPG" eq_refl). Defined.

(** A Coordinate that the web application extracts from a file is
    extracted by the desktop application from the same file, with the same
    latitude and longitude. *)
Theorem desktop_extracts_what_web_extracts f fn lat lon coordinates :
  contribution f = [(fn, lat, lon)] ->
  Main.extract_step coordinates f = Ok (coordinates ++ [(fn, lat, lon, "")])%list.
Proof.
  intros H.
  destruct (contribution_shape f) as [H0 | (exif & lat' & lon' & H1 & Hext & Himg & Hc)];
    [congruence|].
  rewrite H1 in H. injection H as <- <- <-.
  destruct (Streamlit.get_coordinates (Some exif) _) as [r s] eqn:E. simpl in Hc. subst r.
  apply get_coordinates_agrees in E.
  destruct f as [n img]. simpl in *. subst img.
  apply main_step_some; [apply web_filter_implies_desktop_filter, Hext | exact E].
Qed.

Lemma desktop_extracts_what_web_extracts_witness :
  Main.extract_step [] (photo "a.jpg" gps_south_east)
  = Ok ([] ++ [("a.jpg", -10.5, 20.25, "")%float])%list.
Proof.
  exact (desktop_extracts_what_web_extracts (photo "a.jpg" gps_south_east)
           "a.jpg" (-10.5) 20.25 [] eq_refl).
Defined.

(** ** Further properties of the serializers *)

(** The serializers of the two applications agree on the same
    Coordinates: the tabular text and the point markup are equal, and the
    geometry file sets differ in nothing but the text of the spatial
    reference, which is not the same in the two applications. *)
Theorem serializers_agree (coords : list Main.coordinate) :
  Main.save_to_csv coords = Streamlit.save_to_csv_bytes (map without_placeholder coords)
  /\ Main.save_to_kml coords = Streamlit.save_to_kml_bytes (map without_placeholder coords)
  /\ (exists desktop web,
        Main.save_to_shapefile coords = Ok desktop
        /\ Streamlit.save_to_shapefile_bytes (map without_placeholder coords) = Ok web
        /\ Shapefile.shp desktop = Shapefile.shp web
        /\ Shapefile.shx desktop = Shapefile.shx web
        /\ Shapefile.dbf desktop = Shapefile.dbf web
        /\ Shapefile.prj desktop = "EPSG:4326"
        /\ Shapefile.prj web = Streamlit.prj_text)
  /\ Streamlit.prj_text <> "EPSG:4326".
Proof.
  destruct (main_exports coords) as (Hk & Hs & Hc).
  destruct (streamlit_exports (map without_placeholder coords)) as (Hk' & Hs' & Hc').
  split; [|split; [|split]].
  - rewrite Hc, Hc', map_map. do 2 f_equal. apply map_ext.
    intros [[[fn lat] lon] d]. reflexivity.
  - rewrite Hk, Hk', map_map. apply map_ext. intros [[[fn lat] lon] d]. reflexivity.
  - eexists _, _. split; [exact Hs|]. split; [exact Hs'|]. cbn.
    rewrite !map_map, length_map.
    repeat split; try reflexivity.
    + apply map_ext. intros [[[fn lat] lon] d]. reflexivity.
    + f_equal. apply map_ext. intros [[[fn lat] lon] d]. reflexivity.
  - discriminate.
Qed.

(** ** Further properties of the component conversion *)

(** A magnitude with fewer than three components never converts: the
    desktop conversion raises, and the web converter yields [None] for a
    block that holds it. *)
Theorem short_magnitude_never_converts items lat_ref lon lon_ref shown :
  (List.length items < 3)%nat ->
  (exists e, Main.convert_to_degrees (VTuple items) = Raise e)
  /\ fst (Streamlit.get_coordinates
            (Some (with_gps (gps_block (VTuple items) lat_ref lon lon_ref))) shown)
     = Ok None.
Proof.
  intros Hlen.
  assert (Hmain : exists e, Main.convert_to_degrees (VTuple items) = Raise e).
  { unfold Main.convert_to_degrees.
    destruct items as [|d [|m [|s rest]]]; simpl in Hlen; try lia; simpl.
    - eexists. reflexivity.
    - destruct (Main.to_float d); simpl; eexists; reflexivity.
    - destruct (Main.to_float d); simpl; [|eexists; reflexivity].
      destruct (Main.to_float m); simpl; eexists; reflexivity. }
  split; [exact Hmain|].
  destruct Hmain as [e He].
  destruct (get_coordinates_total
              (Some (with_gps (gps_block (VTuple items) lat_ref lon lon_ref))))
    as (r & w & H).
  rewrite H. simpl. destruct r as [[lat' lon']|]; [|reflexivity].
  pose proof (get_coordinates_inv _ _ _ (get_coordinates_agrees _ _ _ _ (H shown)))
    as (gps & x & y & Hgps & _ & _ & Hx & _).
  injection Hgps as <-. simpl in Hx. congruence.
Qed.

Lemma short_magnitude_never_converts_witness :
  (exists e, Main.convert_to_degrees (VTuple [rat 10 1; rat 30 1]) = Raise e)
  /\ fst (Streamlit.get_coordinates
            (Some (with_gps (gps_block (VTuple [rat 10 1; rat 30 1]) "N"
                               (dms (rat 20 1) (rat 15 1) (rat 0 1)) "E"))) [])
     = Ok None.
Proof.
  apply (short_magnitude_never_converts [rat 10 1; rat 30 1] "N"
           (dms (rat 20 1) (rat 15 1) (rat 0 1)) "E" []).
  simpl. lia.
Defined.


(** Where the web application's component conversion yields a number, it
    shows nothing, and the desktop one yields the same number. *)
Theorem web_component_conversion_refines r f shown shown' :
  Streamlit.to_float r shown = (Ok f, shown') ->
  Main.to_float r = Ok f /\ shown' = shown.
Proof.
  intros H. split; [exact (to_float_agrees _ _ _ _ H)|].
  revert H. unfold Streamlit.to_float.
  destruct (py_float r) as [x|[]]; unfold Streamlit.lift; try congruence;
    destruct r as [|n|x|[|r0 [|r1 [|? ?]]]];
    try destruct (is_number r0 && is_number r1 && ne_zero r1);
    unfold Streamlit.lift, Streamlit.st_bind, Streamlit.show, Streamlit.raise;
    congruence.
Qed.

Lemma web_component_conversion_refines_witness :
  Main.to_float (rat 30 1) = Ok 30%float /\ ([] : list Streamlit.st_msg) = [].
Proof.
  exact (web_component_conversion_refines (rat 30 1) 30 [] [] eq_refl).
Defined.



(** ** What the web application shows *)

Lemma names_shown_app a b : names_shown (a ++ b) = (names_shown a ++ names_shown b)%list.
Proof. apply flat_map_app. Qed.

Lemma names_nothing_ret {A} (a : A) : names_nothing (Streamlit.ret a).
Proof.
  exists (Ok a), []. split; [|reflexivity].
  intros s. unfold Streamlit.ret. now rewrite app_nil_r.
Qed.

Lemma names_nothing_lift {A} (r : result A) : names_nothing (Streamlit.lift r).
Proof.
  exists r, []. split; [|reflexivity].
  intros s. unfold Streamlit.lift. now rewrite app_nil_r.
Qed.

Lemma names_nothing_raise {A} (e : exn) : names_nothing (@Streamlit.raise A e).
Proof.
  exists (Raise e), []. split; [|reflexivity].
  intros s. unfold Streamlit.raise. now rewrite app_nil_r.
Qed.

Lemma names_nothing_show m :
  names_shown [m] = [] -> names_nothing (Streamlit.show m).
Proof. intros H. exists (Ok tt), [m]. split; [reflexivity | exact H]. Qed.

Lemma names_nothing_bind {A B} (c : Streamlit.St A) (k : A -> Streamlit.St B) :
  names_nothing c -> (forall a, names_nothing (k a)) ->
  names_nothing (Streamlit.st_bind c k).
Proof.
  intros (r & w & Hc & Hw) Hk. unfold Streamlit.st_bind.
  destruct r as [a|e].
  - destruct (Hk a) as (r' & w' & Hk' & Hw').
    exists r', (w ++ w')%list. split.
    + intros s. now rewrite Hc, Hk', app_assoc.
    + now rewrite names_shown_app, Hw, Hw'.
  - exists (Raise e), w. split; [|exact Hw]. intros s. now rewrite Hc.
Qed.

Lemma names_nothing_try {A} (body : Streamlit.St A) (handler : exn -> Streamlit.St A) :
  names_nothing body -> (forall e, names_nothing (handler e)) ->
  names_nothing (Streamlit.try_except body handler).
Proof.
  intros (r & w & Hc & Hw) Hh. unfold Streamlit.try_except.
  destruct r as [a|e].
  - exists (Ok a), w. split; [|exact Hw]. intros s. now rewrite Hc.
  - destruct (Hh e) as (r' & w' & Hh' & Hw').
    exists r', (w ++ w')%list. split.
    + intros s. now rewrite Hc, Hh', app_assoc.
    + now rewrite names_shown_app, Hw, Hw'.
Qed.

Lemma names_nothing_to_float r : names_nothing (Streamlit.to_float r).
Proof.
  unfold Streamlit.to_float.
  destruct (py_float r) as [x|[]]; try apply names_nothing_lift;
    destruct r as [|n|x|[|r0 [|r1 [|? ?]]]];
    try destruct (is_number r0 && is_number r1 && ne_zero r1);
    try apply names_nothing_lift;
    apply names_nothing_bind;
    try (apply names_nothing_show; reflexivity); intros; apply names_nothing_raise.
Qed.

Lemma names_nothing_convert_to_degrees v : names_nothing (Streamlit.convert_to_degrees v).
Proof.
  unfold Streamlit.convert_to_degrees.
  repeat (apply names_nothing_bind;
          [first [apply names_nothing_lift | apply names_nothing_to_float] | intros ?]).
  apply names_nothing_ret.
Qed.

Lemma names_nothing_get_coordinates exif_data :
  names_nothing (Streamlit.get_coordinates exif_data).
Proof.
  unfold Streamlit.get_coordinates.
  destruct exif_data as [exif|]; [|apply names_nothing_ret].
  destruct (negb (exif_nonempty exif)); [apply names_nothing_ret|].
  destruct (GPSInfo exif) as [gps|]; [|apply names_nothing_ret].
  destruct (negb (gps_nonempty gps)); [apply names_nothing_ret|].
  destruct (_ && _); [|apply names_nothing_ret].
  apply names_nothing_try.
  - apply names_nothing_bind; [apply names_nothing_convert_to_degrees | intros x].
    apply names_nothing_bind; [apply names_nothing_convert_to_degrees | intros y].
    apply names_nothing_ret.
  - intros e. destruct e;
      (apply names_nothing_bind;
       [apply names_nothing_show; reflexivity | intros; apply names_nothing_ret]).
Qed.

Lemma names_nothing_get_exif_data img : names_nothing (Streamlit.get_exif_data img).
Proof.
  destruct img; simpl; [|apply names_nothing_ret].
  apply names_nothing_bind;
    [apply names_nothing_show; reflexivity | intros; apply names_nothing_ret].
Qed.

(** One step of the loop names its file once, before anything else it
    shows. *)
Lemma step_names_its_file coordinates uploaded_file shown :
  names_shown (snd (Streamlit.extract_step coordinates uploaded_file shown))
  = (names_shown shown ++ [name uploaded_file])%list.
Proof.
  unfold Streamlit.extract_step.
  destruct (negb (endswith_any _ _)).
  - unfold Streamlit.st_bind, Streamlit.show, Streamlit.ret. simpl.
    now rewrite names_shown_app.
  - assert (H : names_nothing
                  (Streamlit.st_bind (Streamlit.get_exif_data (image uploaded_file))
                     (fun exif_data =>
                        if match exif_data with
                           | Some d => exif_nonempty d
                           | None => false
                           end
                        then
                          Streamlit.st_bind (Streamlit.get_coordinates exif_data)
                            (fun gps_coords =>
                               match gps_coords with
                               | Some (lat, lon) =>
                                   Streamlit.ret
                                     (coordinates ++ [(name uploaded_file, lat, lon)])%list
                               | None => Streamlit.ret coordinates
                               end)
                        else Streamlit.ret coordinates))).
    { apply names_nothing_bind; [apply names_nothing_get_exif_data | intros d].
      destruct (match d with Some d0 => exif_nonempty d0 | None => false end);
        [|apply names_nothing_ret].
      apply names_nothing_bind; [apply names_nothing_get_coordinates | intros [[lat lon]|]];
        apply names_nothing_ret. }
    destruct H as (r & w & Hc & Hw).
    unfold Streamlit.st_bind at 1. unfold Streamlit.show.
    rewrite Hc. simpl. rewrite !names_shown_app, Hw, app_nil_r. reflexivity.
Qed.

Lemma loop_names_every_file uploaded_files :
  forall coordinates shown,
    names_shown (snd (Streamlit.extract_loop coordinates uploaded_files shown))
    = (names_shown shown ++ map name uploaded_files)%list.
Proof.
  induction uploaded_files as [|f rest IH]; intros c s; cbn [Streamlit.extract_loop map].
  - unfold Streamlit.ret. simpl. now rewrite app_nil_r.
  - unfold Streamlit.st_bind.
    destruct (streamlit_step_contribution f) as (w & Hw).
    pose proof (step_names_its_file c f s) as Hn.
    rewrite Hw in Hn |- *. simpl in Hn.
    rewrite IH, Hn, <- app_assoc. reflexivity.
Qed.

(** Every file of a batch is accounted for in what the web application
    shows: the files named by its skipping warnings and processing statuses
    are the files of the batch, each once and in input order. *)
Theorem web_extraction_names_every_file uploaded_files :
  names_shown (snd (Streamlit.extract_coordinates uploaded_files))
  = map name uploaded_files.
Proof. apply (loop_names_every_file uploaded_files [] []). Qed.

(** ** The order of binary64 numbers *)

Ltac cmp_cases ex ey mx my :=
  change (Pos.compare_cont Eq mx my) with (mx ?= my)%positive;
  let E := fresh "E" in let P := fresh "P" in let G := fresh "G" in
  destruct (Z.compare_spec ex ey) as [E|E|E];
  [destruct (Pos.compare_spec mx my) as [P|P|P]| |]; simpl;
  split; intros G; try discriminate; try reflexivity; subst; lia.

Lemma SFleb_rank x y :
  x <> S754_nan -> y <> S754_nan ->
  SFleb x y = true <-> lex_le (rank x) (rank y).
Proof.
  intros Hx Hy. unfold SFleb.
  destruct x as [[|]|[|]| |[|] mx ex], y as [[|]|[|]| |[|] my ey];
    try congruence; simpl;
    try (split; intros H; try discriminate; try reflexivity; lia).
  - cmp_cases ex ey mx my.
  - cmp_cases ex ey mx my.
Qed.

Lemma SFltb_rank x y :
  x <> S754_nan -> y <> S754_nan ->
  SFltb x y = true <-> lex_lt (rank x) (rank y).
Proof.
  intros Hx Hy. unfold SFltb.
  destruct x as [[|]|[|]| |[|] mx ex], y as [[|]|[|]| |[|] my ey];
    try congruence; simpl;
    try (split; intros H; try discriminate; try reflexivity; lia).
  - cmp_cases ex ey mx my.
  - cmp_cases ex ey mx my.
Qed.

Lemma not_nan_spec f : is_nan f = false -> Prim2SF f <> S754_nan.
Proof.
  unfold is_nan. rewrite eqb_spec. intros H Hn. rewrite Hn in H. discriminate.
Qed.

Lemma leb_refl_number x : is_nan x = false -> (x <=? x)%float = true.
Proof.
  intros Hx. apply not_nan_spec in Hx. rewrite leb_spec.
  apply SFleb_rank; auto. destruct (rank (Prim2SF x)) as [[a b] c]. simpl. lia.
Qed.

Lemma ltb_leb_number x y :
  is_nan x = false -> is_nan y = false ->
  (x <? y)%float = true -> (x <=? y)%float = true.
Proof.
  intros Hx Hy. apply not_nan_spec in Hx, Hy. rewrite ltb_spec, leb_spec.
  rewrite SFltb_rank, SFleb_rank by auto.
  destruct (rank (Prim2SF x)) as [[a b] c], (rank (Prim2SF y)) as [[a' b'] c'].
  simpl. lia.
Qed.

Lemma not_ltb_leb_number x y :
  is_nan x = false -> is_nan y = false ->
  (x <? y)%float = false -> (y <=? x)%float = true.
Proof.
  intros Hx Hy. apply not_nan_spec in Hx, Hy. rewrite ltb_spec, leb_spec.
  intros H. apply SFleb_rank; auto.
  assert (Hn : ~ lex_lt (rank (Prim2SF x)) (rank (Prim2SF y))).
  { intros Hlt. apply SFltb_rank in Hlt; auto. congruence. }
  destruct (rank (Prim2SF x)) as [[a b] c], (rank (Prim2SF y)) as [[a' b'] c'].
  simpl in *. lia.
Qed.

Lemma leb_trans_number x y z :
  is_nan x = false -> is_nan y = false -> is_nan z = false ->
  (x <=? y)%float = true -> (y <=? z)%float = true -> (x <=? z)%float = true.
Proof.
  intros Hx Hy Hz. apply not_nan_spec in Hx, Hy, Hz. rewrite !leb_spec.
  rewrite !SFleb_rank by auto.
  destruct (rank (Prim2SF x)) as [[a b] c], (rank (Prim2SF y)) as [[a' b'] c'],
           (rank (Prim2SF z)) as [[a'' b''] c''].
  simpl. lia.
Qed.

(** ** The map of the desktop application *)

Lemma fold_min_spec rest :
  forall first,
    (forall x, In x (first :: rest) -> is_nan x = false) ->
    let least :=
      fold_left (fun least x => if (x <? least)%float then x else least) rest first in
    In least (first :: rest)
    /\ forall x, In x (first :: rest) -> (least <=? x)%float = true.
Proof.
  induction rest as [|y rest IH]; intros first Hnan; cbn [fold_left].
  - split; [left; reflexivity|]. intros x [<-|[]].
    apply leb_refl_number, Hnan. left. reflexivity.
  - set (m0 := if (y <? first)%float then y else first).
    assert (Hm0 : m0 = y \/ m0 = first) by (subst m0; destruct (y <? first)%float; auto).
    assert (Hy : is_nan y = false) by (apply Hnan; right; left; reflexivity).
    assert (Hf : is_nan first = false) by (apply Hnan; left; reflexivity).
    assert (Hn0 : is_nan m0 = false) by (destruct Hm0 as [-> | ->]; assumption).
    assert (Hm0f : (m0 <=? first)%float = true).
    { subst m0. destruct (y <? first)%float eqn:E.
      - apply ltb_leb_number; assumption.
      - apply leb_refl_number, Hf. }
    assert (Hm0y : (m0 <=? y)%float = true).
    { subst m0. destruct (y <? first)%float eqn:E.
      - apply leb_refl_number, Hy.
      - apply not_ltb_leb_number; assumption. }
    destruct (IH m0) as [Hin Hle].
    { intros x [<-|Hx]; [exact Hn0 | apply Hnan; right; right; exact Hx]. }
    cbv zeta in Hin, Hle. split.
    + destruct Hin as [Hin|Hin]; [|right; right; exact Hin].
      rewrite <- Hin. destruct Hm0 as [-> | ->]; [right; left | left]; reflexivity.
    + assert (Hleast : is_nan (fold_left
                 (fun least x => if (x <? least)%float then x else least) rest m0) = false).
      { destruct Hin as [<-|Hin]; [exact Hn0 | apply Hnan; right; right; exact Hin]. }
      intros x [<-|[<-|Hx]].
      * eapply leb_trans_number; [exact Hleast | exact Hn0 | exact Hf | | exact Hm0f].
        apply Hle. left. reflexivity.
      * eapply leb_trans_number; [exact Hleast | exact Hn0 | exact Hy | | exact Hm0y].
        apply Hle. left. reflexivity.
      * apply Hle. right. exact Hx.
Qed.

Lemma fold_max_spec rest :
  forall first,
    (forall x, In x (first :: rest) -> is_nan x = false) ->
    let greatest :=
      fold_left (fun greatest x => if (greatest <? x)%float then x else greatest)
        rest first in
    In greatest (first :: rest)
    /\ forall x, In x (first :: rest) -> (x <=? greatest)%float = true.
Proof.
  induction rest as [|y rest IH]; intros first Hnan; cbn [fold_left].
  - split; [left; reflexivity|]. intros x [<-|[]].
    apply leb_refl_number, Hnan. left. reflexivity.
  - set (m0 := if (first <? y)%float then y else first).
    assert (Hm0 : m0 = y \/ m0 = first) by (subst m0; destruct (first <? y)%float; auto).
    assert (Hy : is_nan y = false) by (apply Hnan; right; left; reflexivity).
    assert (Hf : is_nan first = false) by (apply Hnan; left; reflexivity).
    assert (Hn0 : is_nan m0 = false) by (destruct Hm0 as [-> | ->]; assumption).
    assert (Hm0f : (first <=? m0)%float = true).
    { subst m0. destruct (first <? y)%float eqn:E.
      - apply ltb_leb_number; assumption.
      - apply leb_refl_number, Hf. }
    assert (Hm0y : (y <=? m0)%float = true).
    { subst m0. destruct (first <? y)%float eqn:E.
      - apply leb_refl_number, Hy.
      - apply not_ltb_leb_number; assumption. }
    destruct (IH m0) as [Hin Hle].
    { intros x [<-|Hx]; [exact Hn0 | apply Hnan; right; right; exact Hx]. }
    cbv zeta in Hin, Hle. split.
    + destruct Hin as [Hin|Hin]; [|right; right; exact Hin].
      rewrite <- Hin. destruct Hm0 as [-> | ->]; [right; left | left]; reflexivity.
    + assert (Hgreatest : is_nan (fold_left
                 (fun greatest x => if (greatest <? x)%float then x else greatest)
                 rest m0) = false).
      { destruct Hin as [<-|Hin]; [exact Hn0 | apply Hnan; right; right; exact Hin]. }
      intros x [<-|[<-|Hx]].
      * eapply leb_trans_number; [exact Hf | exact Hn0 | exact Hgreatest | exact Hm0f |].
        apply Hle. left. reflexivity.
      * eapply leb_trans_number; [exact Hy | exact Hn0 | exact Hgreatest | exact Hm0y |].
        apply Hle. left. reflexivity.
      * apply Hle. right. exact Hx.
Qed.

(** [min] and [max] of a list of numbers without a NaN: an element of
    the list, below (above) every element. *)
Lemma py_min_spec values least :
  (forall x, In x values -> is_nan x = false) ->
  GeoSnapExtractor.py_min values = Ok least ->
  In least values /\ forall x, In x values -> (least <=? x)%float = true.
Proof.
  destruct values as [|first rest]; [discriminate|].
  intros Hnan [= <-]. apply fold_min_spec, Hnan.
Qed.

Lemma py_max_spec values greatest :
  (forall x, In x values -> is_nan x = false) ->
  GeoSnapExtractor.py_max values = Ok greatest ->
  In greatest values /\ forall x, In x values -> (x <=? greatest)%float = true.
Proof.
  destruct values as [|first rest]; [discriminate|].
  intros Hnan [= <-]. apply fold_max_spec, Hnan.
Qed.

(** [update_map] never raises: [min] and [max] are only taken of a list
    that is not empty. *)
Lemma update_map_ok coords :
  exists m,
    GeoSnapExtractor.update_map coords = Ok m
    /\ GeoSnapExtractor.markers m
       = map (fun '(filename, lat, lon, _) => ((lat, lon), filename)) coords
    /\ (GeoSnapExtractor.fitted_bounds m = None <-> coords = []).
Proof.
  unfold GeoSnapExtractor.update_map.
  destruct coords as [|c rest].
  - eexists. split; [reflexivity|]. split; [reflexivity|]. simpl. tauto.
  - cbn [map GeoSnapExtractor.py_min GeoSnapExtractor.py_max bind].
    eexists. split; [reflexivity|]. split; [reflexivity|]. cbn.
    split; intros; discriminate.
Qed.

Lemma update_map_bounds coords m min_lat min_lon max_lat max_lon :
  GeoSnapExtractor.update_map coords = Ok m ->
  GeoSnapExtractor.fitted_bounds m = Some ((min_lat, min_lon), (max_lat, max_lon)) ->
  GeoSnapExtractor.py_min (map (fun '(_, lat, _, _) => lat) coords) = Ok min_lat
  /\ GeoSnapExtractor.py_min (map (fun '(_, _, lon, _) => lon) coords) = Ok min_lon
  /\ GeoSnapExtractor.py_max (map (fun '(_, lat, _, _) => lat) coords) = Ok max_lat
  /\ GeoSnapExtractor.py_max (map (fun '(_, _, lon, _) => lon) coords) = Ok max_lon.
Proof.
  unfold GeoSnapExtractor.update_map.
  destruct coords as [|c rest]; [intros [= <-]; discriminate|].
  set (lats := map (fun '(_, lat, _, _) => lat) (c :: rest)).
  set (lons := map (fun '(_, _, lon, _) => lon) (c :: rest)).
  destruct (GeoSnapExtractor.py_min lats) as [a|]; [|discriminate].
  destruct (GeoSnapExtractor.py_min lons) as [b|]; [|discriminate].
  destruct (GeoSnapExtractor.py_max lats) as [a'|]; [|discriminate].
  destruct (GeoSnapExtractor.py_max lons) as [b'|]; [|discriminate].
  cbn [bind]. intros [= <-]. cbn. intros [= -> -> -> ->]. auto.
Qed.

(** When no latitude and no longitude is a NaN, the bounds the map is
    fitted to contain every marker, and each of the four bounds is the
    latitude or the longitude of a Coordinate of the set. *)
Theorem map_bounds_contain_markers coords m min_lat min_lon max_lat max_lon :
  no_nan coords ->
  GeoSnapExtractor.update_map coords = Ok m ->
  GeoSnapExtractor.fitted_bounds m = Some ((min_lat, min_lon), (max_lat, max_lon)) ->
  (forall lat lon popup,
      In ((lat, lon), popup) (GeoSnapExtractor.markers m) ->
      (min_lat <=? lat)%float = true /\ (lat <=? max_lat)%float = true
      /\ (min_lon <=? lon)%float = true /\ (lon <=? max_lon)%float = true)
  /\ In min_lat (map (fun '(_, lat, _, _) => lat) coords)
  /\ In max_lat (map (fun '(_, lat, _, _) => lat) coords)
  /\ In min_lon (map (fun '(_, _, lon, _) => lon) coords)
  /\ In max_lon (map (fun '(_, _, lon, _) => lon) coords).
Proof.
  intros Hnan Hm Hb.
  destruct (update_map_bounds _ _ _ _ _ _ Hm Hb) as (H1 & H2 & H3 & H4).
  assert (Hlats : forall x, In x (map (fun '(_, lat, _, _) => lat) coords) ->
                            is_nan x = false).
  { intros x Hx. apply in_map_iff in Hx as ([[[fn lat] lon] d] & <- & Hin).
    apply (Hnan _ _ _ _ Hin). }
  assert (Hlons : forall x, In x (map (fun '(_, _, lon, _) => lon) coords) ->
                            is_nan x = false).
  { intros x Hx. apply in_map_iff in Hx as ([[[fn lat] lon] d] & <- & Hin).
    apply (Hnan _ _ _ _ Hin). }
  destruct (py_min_spec _ _ Hlats H1) as [Hi1 Hl1].
  destruct (py_min_spec _ _ Hlons H2) as [Hi2 Hl2].
  destruct (py_max_spec _ _ Hlats H3) as [Hi3 Hl3].
  destruct (py_max_spec _ _ Hlons H4) as [Hi4 Hl4].
  split; [|auto].
  intros lat lon popup Hin.
  destruct (update_map_ok coords) as (m' & Hm' & Hmk & _).
  assert (m' = m) as -> by congruence.
  rewrite Hmk in Hin. apply in_map_iff in Hin as ([[[fn lat'] lon'] d] & [= <- <- <-] & Hin).
  assert (Hlat : In lat' (map (fun '(_, lat, _, _) => lat) coords))
    by (apply in_map_iff; exists (fn, lat', lon', d); auto).
  assert (Hlon : In lon' (map (fun '(_, _, lon, _) => lon) coords))
    by (apply in_map_iff; exists (fn, lat', lon', d); auto).
  auto.
Qed.

Lemma map_bounds_contain_markers_witness :
  In (-10.5)%float (map (fun '(_, lat, _, _) => lat)
                      [("a.jpg", 1, 2, ""); ("c.jpg", -10.5, 20.25, "")]%float).
Proof.
  refine (proj1 (proj2
    (map_bounds_contain_markers [("a.jpg", 1, 2, ""); ("c.jpg", -10.5, 20.25, "")]%float
       _ (-10.5) 2 1 20.25 _ eq_refl eq_refl))).
  intros fn lat lon d [[= <- <- <- <-]|[[= <- <- <- <-]|[]]]; split; reflexivity.
Defined.

(** ** A click on "Extract Coordinates" *)

Lemma window_loop_spec listing :
  forall coordinates,
    Main.extract_loop coordinates listing
    = match GeoSnapExtractor.extract_loop coordinates listing with
      | (found, None) => Ok found
      | (_, Some e) => Raise e
      end.
Proof.
  induction listing as [|entry rest IH]; intros c; simpl; [reflexivity|].
  destruct (Main.extract_step c entry) as [c'|e]; simpl; [apply IH | reflexivity].
Qed.


Lemma window_loop_raise before entry after :
  forall coordinates found e,
    Main.extract_loop coordinates before = Ok found ->
    Main.extract_step found entry = Raise e ->
    GeoSnapExtractor.extract_loop coordinates (before ++ entry :: after) = (found, Some e).
Proof.
  induction before as [|b before IH]; intros c found e; simpl.
  - intros [= ->] H. now rewrite H.
  - destruct (Main.extract_step c b) as [c1|e1]; simpl; [apply IH | discriminate].
Qed.

Lemma ready_guards w :
  ready w = true ->
  String.eqb (GeoSnapExtractor.folder_path w) "" = false
  /\ String.eqb (GeoSnapExtractor.output_folder_path w) "" = false
  /\ negb (GeoSnapExtractor.csv_checked w || GeoSnapExtractor.kml_checked w
           || GeoSnapExtractor.shp_checked w) = false.
Proof.
  unfold ready. intros H.
  apply andb_prop in H as [H H3]. apply andb_prop in H as [H1 H2].
  rewrite H3. apply negb_true_iff in H1, H2. auto.
Qed.

(** A click that is refused changes nothing: when a folder is not chosen
    or no format is checked, the window stays as it was, one warning is
    shown, and nothing is read, written or raised. *)
Theorem refused_click_changes_nothing w listing :
  ready w = false ->
  let o := GeoSnapExtractor.extract_coordinates w listing in
  GeoSnapExtractor.after o = w
  /\ (exists text, GeoSnapExtractor.dialogs o = [GeoSnapExtractor.warning text])
  /\ GeoSnapExtractor.written o = []
  /\ GeoSnapExtractor.made_directory o = None
  /\ GeoSnapExtractor.raised o = None.
Proof.
  unfold ready, GeoSnapExtractor.extract_coordinates. intros H. cbv zeta.
  destruct (String.eqb (GeoSnapExtractor.folder_path w) "");
    [repeat split; eexists; reflexivity|].
  destruct (String.eqb (GeoSnapExtractor.output_folder_path w) "");
    [repeat split; eexists; reflexivity|].
  simpl in H. rewrite H. simpl. repeat split; eexists; reflexivity.
Qed.

Lemma refused_click_changes_nothing_witness :
  GeoSnapExtractor.written
    (GeoSnapExtractor.extract_coordinates window_without_output batch_zero_denominator)
  = [].
Proof.
  exact (proj1 (proj2 (proj2
    (refused_click_changes_nothing window_without_output batch_zero_denominator
       eq_refl)))).
Defined.

(** An exception in the loop ends the click: it leaves the window with
    the Coordinates collected before the failing entry and the status
    "Extracting", the map is not redrawn, and nothing is written. *)
Theorem click_ends_at_exception w before entry after found e :
  ready w = true ->
  Main.extract_coordinates before = Ok found ->
  Main.extract_step found entry = Raise e ->
  let o := GeoSnapExtractor.extract_coordinates w (before ++ entry :: after) in
  GeoSnapExtractor.raised o = Some e
  /\ GeoSnapExtractor.written o = []
  /\ GeoSnapExtractor.dialogs o = []
  /\ GeoSnapExtractor.coordinates (GeoSnapExtractor.after o) = found
  /\ GeoSnapExtractor.status_label (GeoSnapExtractor.after o)
     = GeoSnapExtractor.status_extracting
  /\ GeoSnapExtractor.map_view (GeoSnapExtractor.after o) = GeoSnapExtractor.map_view w
  /\ GeoSnapExtractor.open_folder_enabled (GeoSnapExtractor.after o)
     = GeoSnapExtractor.open_folder_enabled w.
Proof.
  intros Hready Hbefore Hstep. cbv zeta.
  destruct (ready_guards w Hready) as (H1 & H2 & H3).
  unfold GeoSnapExtractor.extract_coordinates. rewrite H1, H2, H3.
  rewrite (window_loop_raise before entry after [] found e Hbefore Hstep).
  repeat split; reflexivity.
Qed.

Lemma click_ends_at_exception_witness :
  GeoSnapExtractor.raised
    (GeoSnapExtractor.extract_coordinates sample_window
       ([photo "a.jpg" gps_one_two]
          ++ photo "b.jpg" gps_zero_denominator :: [photo "c.jpg" gps_south_east]))
  = Some ZeroDivisionError.
Proof.
  exact (proj1
    (click_ends_at_exception sample_window [photo "a.jpg" gps_one_two]
       (photo "b.jpg" gps_zero_denominator) [photo "c.jpg" gps_south_east]
       [("a.jpg", 1, 2, "")%float] ZeroDivisionError eq_refl eq_refl eq_refl)).
Defined.



(** Nothing is written without Coordinates: a file is written only when
    the window was ready, the loop returned, and it found a Coordinate. *)
Theorem nothing_written_without_coordinates w listing :
  GeoSnapExtractor.written (GeoSnapExtractor.extract_coordinates w listing) <> [] ->
  ready w = true
  /\ exists found,
       Main.extract_coordinates listing = Ok found /\ found <> [].
Proof.
  unfold GeoSnapExtractor.extract_coordinates, ready.
  destruct (String.eqb (GeoSnapExtractor.folder_path w) ""); [simpl; congruence|].
  destruct (String.eqb (GeoSnapExtractor.output_folder_path w) ""); [simpl; congruence|].
  destruct (GeoSnapExtractor.csv_checked w || GeoSnapExtractor.kml_checked w
            || GeoSnapExtractor.shp_checked w) eqn:Hfmt; [|simpl; congruence].
  cbn [negb andb].
  unfold Main.extract_coordinates. rewrite window_loop_spec.
  destruct (GeoSnapExtractor.extract_loop [] listing) as [found [e|]];
    [simpl; congruence|].
  destruct (GeoSnapExtractor.update_map found) as [m|e]; [|simpl; congruence].
  destruct found as [|c rest]; [simpl; congruence|].
  intros _. split; [reflexivity|]. exists (c :: rest). split; [reflexivity | discriminate].
Qed.

Lemma nothing_written_without_coordinates_witness :
  ready sample_window = true
  /\ exists found,
       Main.extract_coordinates batch_no_extension = Ok found /\ found <> [].
Proof.
  apply (nothing_written_without_coordinates sample_window batch_no_extension).
  vm_compute. discriminate.
Defined.

(** ** The downloads of the web application *)



(** ** Failure isolation in the web application *)

(** In the web application a file that the desktop converter cannot
    convert (it yields [None] or raises, as for a zero denominator anywhere
    in a magnitude) leaves no trace in the CoordinateSet: the batch yields
    what it yields without that file, whatever surrounds it. *)
Theorem web_skips_unconvertible_file before after n exif :
  Main.get_coordinates exif = Ok None \/ (exists e, Main.get_coordinates exif = Raise e) ->
  fst (Streamlit.extract_coordinates
         (before ++ {| name := n; image := Decoded exif |} :: after))
  = fst (Streamlit.extract_coordinates (before ++ after)).
Proof.
  intros Hmain. apply streamlit_partial_failure.
  destruct (contribution_shape {| name := n; image := Decoded exif |})
    as [H | (exif' & lat & lon & _ & _ & Himg & Hc)]; [exact H|].
  simpl in Himg. injection Himg as <-.
  destruct (Streamlit.get_coordinates (Some exif) _) as [r s] eqn:E. simpl in Hc. subst r.
  apply get_coordinates_agrees in E.
  destruct Hmain as [Hn | [e He]]; congruence.
Qed.

Lemma web_skips_unconvertible_file_witness :
  fst (Streamlit.extract_coordinates
         ([photo "a.jpg" gps_one_two]
            ++ {| name := "b.jpg"; image := Decoded (with_gps gps_zero_denominator) |}
            :: [photo "c.jpg" gps_south_east]))
  = fst (Streamlit.extract_coordinates
           ([photo "a.jpg" gps_one_two] ++ [photo "c.jpg" gps_south_east])).
Proof.
  apply (web_skips_unconvertible_file [photo "a.jpg" gps_one_two]
           [photo "c.jpg" gps_south_east] "b.jpg" (with_gps gps_zero_denominator)).
  right. exists ZeroDivisionError. reflexivity.
Defined.

(** ** The lines of the tabular export *)

Lemma no_line_break_app a b :
  no_line_break (a ++ b) = no_line_break a && no_line_break b.
Proof.
  induction a as [|c a IH]; simpl; [reflexivity|].
  rewrite IH, !andb_assoc. reflexivity.
Qed.

Lemma no_line_break_substring s :
  no_line_break s = true -> forall n m, no_line_break (substring n m s) = true.
Proof.
  induction s as [|c s IH]; intros H n m.
  - destruct n, m; reflexivity.
  - simpl in H. apply andb_prop in H as [Hc Hs].
    destruct n as [|n]; [destruct m as [|m]|]; simpl; auto.
    rewrite Hc. simpl. auto.
Qed.

Lemma no_line_break_uint u : no_line_break (NilEmpty.string_of_uint u) = true.
Proof. induction u; simpl; auto. Qed.

Lemma no_line_break_zeros n : no_line_break (zeros n) = true.
Proof. induction n; simpl; auto. Qed.

Lemma no_line_break_exponent x : no_line_break (exponent_str x) = true.
Proof.
  unfold exponent_str, digits_of.
  rewrite no_line_break_app.
  assert (H : forall ds, no_line_break ds = true ->
                         no_line_break (if (String.length ds <? 2)%nat
                                        then "0" ++ ds else ds) = true).
  { intros ds Hds. destruct (String.length ds <? 2)%nat; simpl; auto. }
  rewrite H; [destruct (x <? 0)%Z; reflexivity|].
  destruct x; [reflexivity | apply no_line_break_uint | apply no_line_break_uint].
Qed.

Lemma no_line_break_format ds decpt :
  no_line_break ds = true -> no_line_break (format_repr ds decpt) = true.
Proof.
  intros H. unfold format_repr.
  destruct ((decpt <=? -4)%Z || (16 <? decpt)%Z).
  - rewrite !no_line_break_app, no_line_break_substring, no_line_break_exponent by exact H.
    destruct (1 <? String.length ds)%nat; [|reflexivity].
    rewrite no_line_break_app, no_line_break_substring by exact H. reflexivity.
  - destruct (decpt <=? 0)%Z.
    + rewrite !no_line_break_app, no_line_break_zeros, H. reflexivity.
    + destruct (Z.of_nat (String.length ds) <=? decpt)%Z.
      * rewrite !no_line_break_app, no_line_break_zeros, H. reflexivity.
      * rewrite !no_line_break_app, !no_line_break_substring by exact H. reflexivity.
Qed.

(** The text of a float holds no line break. *)
Lemma no_line_break_repr f : no_line_break (float_repr f) = true.
Proof.
  unfold float_repr.
  destruct (Prim2SF f) as [[|]|[|]| |s m e]; try reflexivity.
  unfold shortest_digits.
  destruct (shortest_from _ _ _ _ _ _) as [c t].
  destruct (strip_zeros _ _ _) as [c' t'].
  rewrite no_line_break_app, no_line_break_format
    by (unfold digits_of; apply no_line_break_uint).
  destruct s; reflexivity.
Qed.

Lemma no_line_break_double_quotes s :
  no_line_break (Csv.double_quotes s) = no_line_break s.
Proof.
  induction s as [|c s IH]; simpl; [reflexivity|].
  destruct (Ascii.eqb_spec c Csv.quotechar) as [->|]; simpl; now rewrite IH.
Qed.

(** Quoting a field adds no line break. *)
Lemma no_line_break_field s : no_line_break (Csv.field_text s) = no_line_break s.
Proof.
  unfold Csv.field_text. destruct (Csv.needs_quotes s); [|reflexivity].
  cbn [no_line_break]. rewrite no_line_break_app, no_line_break_double_quotes.
  simpl. now rewrite andb_true_r.
Qed.

Lemma no_line_break_row fn lat lon :
  no_line_break fn = true -> no_line_break (row_text fn lat lon) = true.
Proof.
  intros H. unfold row_text.
  rewrite !no_line_break_app, !no_line_break_field, !no_line_break_repr, H. reflexivity.
Qed.

Lemma splitlines_row row :
  no_line_break row = true ->
  forall line rest,
    splitlines_from line (row ++ Csv.lineterminator ++ rest)
    = (line ++ row) :: splitlines_from "" rest.
Proof.
  induction row as [|c row IH]; intros H line rest.
  - simpl. now rewrite string_app_nil_r.
  - simpl in H. apply andb_prop in H as [Hc Hrow]. apply andb_prop in Hc as [H10 H13].
    apply negb_true_iff in H10, H13.
    cbn [String.append splitlines_from]. rewrite H10, H13, IH by exact Hrow.
    rewrite string_app_assoc. reflexivity.
Qed.

Lemma splitlines_rows rows :
  (forall row, In row rows -> no_line_break row = true) ->
  splitlines_from "" (String.concat "" (map (fun row => row ++ Csv.lineterminator) rows))
  = rows.
Proof.
  induction rows as [|row rows IH]; intros H; [reflexivity|].
  assert (Hrow : no_line_break row = true) by (apply H; left; reflexivity).
  assert (Hrest : forall r, In r rows -> no_line_break r = true)
    by (intros r Hr; apply H; right; exact Hr).
  cbn [map String.concat].
  destruct (map (fun row0 => row0 ++ Csv.lineterminator) rows) as [|r rs] eqn:E.
  - destruct rows; [|discriminate].
    rewrite <- (string_app_nil_r (row ++ Csv.lineterminator)), string_app_assoc.
    rewrite splitlines_row by exact Hrow. reflexivity.
  - rewrite string_app_assoc. cbn [String.append].
    change (String "013" (String "010" (String.concat "" (r :: rs))))
      with (Csv.lineterminator ++ String.concat "" (r :: rs)).
    rewrite splitlines_row by exact Hrow. rewrite IH by exact Hrest. reflexivity.
Qed.

Lemma splitlines_export rows :
  (forall row, In row rows -> no_line_break row = true) ->
  splitlines
    (header_line
       ++ String.concat "" (map (fun row => row ++ Csv.lineterminator) rows))
  = "filename,latitude,longitude" :: rows.
Proof.
  intros H. unfold splitlines, header_line. rewrite string_app_assoc.
  rewrite splitlines_row by reflexivity. rewrite splitlines_rows by exact H. reflexivity.
Qed.

Lemma data_row_is_row_text fn lat lon :
  Csv.writerow [Csv.CStr fn; Csv.CFloat lat; Csv.CFloat lon]
  = row_text fn lat lon ++ Csv.lineterminator.
Proof.
  rewrite data_row_text. unfold row_text. rewrite !string_app_assoc. reflexivity.
Qed.

(** When no file name holds a line break, the tabular export has one line
    per Coordinate after its header line, in set order: the file name, the
    latitude and the longitude, separated by commas.  This holds for both
    applications. *)
Theorem tabular_export_one_line_per_coordinate
        (coords : list Main.coordinate) (uploaded : list Streamlit.coordinate) :
  (forall fn lat lon d, In (fn, lat, lon, d) coords -> no_line_break fn = true) ->
  (forall fn lat lon, In (fn, lat, lon) uploaded -> no_line_break fn = true) ->
  splitlines (Main.save_to_csv coords)
  = "filename,latitude,longitude"
    :: map (fun '(fn, lat, lon, _) => row_text fn lat lon) coords
  /\ splitlines (Streamlit.save_to_csv_bytes uploaded)
     = "filename,latitude,longitude"
       :: map (fun '(fn, lat, lon) => row_text fn lat lon) uploaded
  /\ List.length (splitlines (Main.save_to_csv coords)) = S (List.length coords)
  /\ List.length (splitlines (Streamlit.save_to_csv_bytes uploaded))
     = S (List.length uploaded).
Proof.
  intros Hc Hu.
  assert (H1 : splitlines (Main.save_to_csv coords)
               = "filename,latitude,longitude"
                 :: map (fun '(fn, lat, lon, _) => row_text fn lat lon) coords).
  { destruct (main_exports coords) as (_ & _ & ->).
    rewrite <- splitlines_export.
    - do 3 f_equal. rewrite map_map. apply map_ext.
      intros [[[fn lat] lon] d]. apply data_row_is_row_text.
    - intros row Hrow. apply in_map_iff in Hrow as ([[[fn lat] lon] d] & <- & Hin).
      apply no_line_break_row, (Hc _ _ _ _ Hin). }
  assert (H2 : splitlines (Streamlit.save_to_csv_bytes uploaded)
               = "filename,latitude,longitude"
                 :: map (fun '(fn, lat, lon) => row_text fn lat lon) uploaded).
  { destruct (streamlit_exports uploaded) as (_ & _ & ->).
    rewrite <- splitlines_export.
    - do 3 f_equal. rewrite map_map. apply map_ext.
      intros [[fn lat] lon]. apply data_row_is_row_text.
    - intros row Hrow. apply in_map_iff in Hrow as ([[fn lat] lon] & <- & Hin).
      apply no_line_break_row, (Hu _ _ _ Hin). }
  rewrite H1, H2. cbn [List.length]. rewrite !length_map. auto.
Qed.

Lemma tabular_export_one_line_per_coordinate_witness :
  List.length (splitlines (Main.save_to_csv [("a,b.jpg", 1, 2, "")%float])) = 2%nat.
Proof.
  refine (proj1 (proj2 (proj2
    (tabular_export_one_line_per_coordinate [("a,b.jpg", 1, 2, "")%float] [] _ _)))).
  - intros fn lat lon d [[= <- <- <- <-]|[]]. reflexivity.
  - intros fn lat lon [].
Defined.
